(** * Hong Kong Weather MCP server: the request/format pipeline of [weather.py]

    The Python module is embedded shallowly.

    - A Python [str] is a sequence of code points ([pystr]); [u] reads an
      ASCII literal.
    - Python objects live in a heap.  Scalars ([None], [bool], [int], [float],
      [str]) are immutable values; a [list] or a [dict] is a heap object
      reached through a reference, so that aliasing and in-place updates
      ([list.append]) are visible.
    - A Python exception is an error result ([Raise]).
    - What the interpreter fixes and the program cannot see into is a
      Section variable: the [float] type with its [repr] and truth value,
      [repr] on [str], the recursion limit, the iteration order of a [set]
      literal, and the upstream HTTP service. *)

From Stdlib Require Import String Ascii ZArith NArith Bool Lia DecimalString
  Permutation List.
Import ListNotations.

Set Implicit Arguments.
Set Warnings "-register-all".

(** ** Strings *)

Definition pystr := list N.

Definition u (s : string) : pystr :=
  map N_of_ascii (list_ascii_of_string s).

Arguments u s%_string.

Definition nl : pystr := [10%N].

Fixpoint pystr_eqb (a b : pystr) : bool :=
  match a, b with
  | [], [] => true
  | x :: a', y :: b' => N.eqb x y && pystr_eqb a' b'
  | _, _ => false
  end.

(** [sep.join(parts)] on a sequence that is known to hold only [str]. *)
Fixpoint join (sep : pystr) (parts : list pystr) : pystr :=
  match parts with
  | [] => []
  | [p] => p
  | p :: rest => p ++ sep ++ join sep rest
  end.

(** [str(z)] for a Python [int]. *)
Definition str_of_int (z : Z) : pystr :=
  u (NilZero.string_of_int (Z.to_int z)).

Fixpoint is_prefix (p s : pystr) : bool :=
  match p, s with
  | [], _ => true
  | x :: p', y :: s' => N.eqb x y && is_prefix p' s'
  | _ :: _, [] => false
  end.

(** [p in s] for two [str]: substring test. *)
Fixpoint is_substring (p s : pystr) : bool :=
  is_prefix p s ||
  match s with
  | [] => false
  | _ :: s' => is_substring p s'
  end.

(** ** Exceptions and results

    The exception classes the module can meet.  [ValueError] is what
    [response.json()] raises on a body that is no JSON text; [OtherException]
    stands for any further subclass of [Exception].  [CancelledError]
    (of [asyncio], raised into a coroutine at an [await] when its task is
    cancelled), [KeyboardInterrupt] and [SystemExit] derive from
    [BaseException] and not from [Exception].  [BadReference] is no
    Python exception: it marks a reference out of the heap, which a
    well-formed heap does not hold. *)

Inductive exn : Type :=
| KeyError
| IndexError
| TypeError
| AttributeError
| UnboundLocalError
| RecursionError
| ValueError
| HTTPStatusError (status : Z)
| RequestError
| OtherException (name : pystr)
| CancelledError
| KeyboardInterrupt
| SystemExit
| BadReference.

(** [LookupError] is the base class of [KeyError] and [IndexError]. *)
Definition is_LookupError (e : exn) : bool :=
  match e with
  | KeyError | IndexError => true
  | _ => false
  end.

(** What a clause [except Exception] catches: every class but the three that
    derive from [BaseException] only.  ([BadReference] does not arise where
    the module has such a clause: the fetcher reads no reference.) *)
Definition is_Exception (e : exn) : bool :=
  match e with
  | CancelledError | KeyboardInterrupt | SystemExit => false
  | _ => true
  end.

Inductive result (A : Type) : Type :=
| Ok (a : A)
| Raise (e : exn).

Arguments Ok {A} a.
Arguments Raise {A} e.

Definition rbind {A B} (m : result A) (k : A -> result B) : result B :=
  match m with
  | Ok a => k a
  | Raise e => Raise e
  end.

Declare Scope py_scope.
Delimit Scope py_scope with py.
Open Scope py_scope.

Notation "x <- m ;; k" := (rbind m (fun x => k))
  (at level 61, m at next level, right associativity) : py_scope.

Fixpoint map_result {A B} (f : A -> result B) (xs : list A) : result (list B) :=
  match xs with
  | [] => Ok []
  | x :: xs' =>
      y <- f x ;;
      ys <- map_result f xs' ;;
      Ok (y :: ys)
  end.

(** ** An interpreter to run examples on

    Documents without a [float], [repr] on a [str] that holds no quote and
    needs no escape, and an order for each of the two sets. *)

Definition no_float : Type := Empty_set.

Definition no_float_repr (f : no_float) : pystr := match f with end.

Definition no_float_bool (f : no_float) : bool := match f with end.

Definition quoted (s : pystr) : pystr := u "'" ++ s ++ u "'".

(** An order for each of the two [set] literals of [get_weather]. *)
Definition example_order1 : list pystr :=
  [u "swt"; u "fnd"; u "flw"; u "warnsum"; u "rhrread"; u "warningInfo"].

Definition example_order2 : list pystr := [u "tc"; u "en"; u "sc"].

Section Weather.

(** ** What the interpreter and the environment fix *)

(** Python's [float], with [repr] and [bool] on it. *)
Variable pyfloat : Type.
Variable float_repr : pyfloat -> pystr.
Variable float_bool : pyfloat -> bool.

(** [repr] on a [str] (quotes and escapes). *)
Variable str_repr : pystr -> pystr.

(** Nesting depth beyond which [repr] raises [RecursionError]. *)
Variable recursion_limit : nat.

(** ** Values and the heap *)

Definition loc := nat.

Inductive val : Type :=
| VNone
| VBool (b : bool)
| VInt (z : Z)
| VFloat (f : pyfloat)
| VStr (s : pystr)
| VRef (l : loc).

(** A [dict] keeps its keys in insertion order; the keys of a parsed JSON
    object are [str]. *)
Inductive obj : Type :=
| OList (xs : list val)
| ODict (kvs : list (pystr * val)).

Definition heap := list obj.

Fixpoint lookup (k : pystr) (kvs : list (pystr * val)) : option val :=
  match kvs with
  | [] => None
  | (k', v) :: rest => if pystr_eqb k k' then Some v else lookup k rest
  end.

(** [d[k] = v] on the entries of a [dict]: an existing key keeps its place. *)
Fixpoint dict_set (k : pystr) (v : val) (kvs : list (pystr * val))
  : list (pystr * val) :=
  match kvs with
  | [] => [(k, v)]
  | (k', v') :: rest =>
      if pystr_eqb k k' then (k, v) :: rest else (k', v') :: dict_set k v rest
  end.

(** ** Operations that only read *)

(** [v.get(k, dflt)] *)
Definition dict_get (h : heap) (v : val) (k : pystr) (dflt : val) : result val :=
  match v with
  | VRef l =>
      match nth_error h l with
      | Some (ODict kvs) =>
          Ok (match lookup k kvs with Some x => x | None => dflt end)
      | Some (OList _) => Raise AttributeError
      | None => Raise BadReference
      end
  | _ => Raise AttributeError
  end.

(** Looking the method [get] up on [v]: of the values here only a [dict]
    has it. *)
Definition get_method (h : heap) (v : val) : result unit :=
  match v with
  | VRef l =>
      match nth_error h l with
      | Some (ODict _) => Ok tt
      | Some (OList _) => Raise AttributeError
      | None => Raise BadReference
      end
  | _ => Raise AttributeError
  end.

(** [v[k]] with a [str] key [k] *)
Definition getitem (h : heap) (v : val) (k : pystr) : result val :=
  match v with
  | VRef l =>
      match nth_error h l with
      | Some (ODict kvs) =>
          match lookup k kvs with Some x => Ok x | None => Raise KeyError end
      | Some (OList _) => Raise TypeError
      | None => Raise BadReference
      end
  | _ => Raise TypeError
  end.

(** [v[0]] *)
Definition getitem0 (h : heap) (v : val) : result val :=
  match v with
  | VRef l =>
      match nth_error h l with
      | Some (OList (x :: _)) => Ok x
      | Some (OList []) => Raise IndexError
      | Some (ODict _) => Raise KeyError
      | None => Raise BadReference
      end
  | VStr (c :: _) => Ok (VStr [c])
  | VStr [] => Raise IndexError
  | _ => Raise TypeError
  end.

(** [v == k] for a [str] [k] *)
Definition eq_str (v : val) (k : pystr) : bool :=
  match v with
  | VStr s => pystr_eqb s k
  | _ => false
  end.

(** [k in v] for a [str] [k] *)
Definition py_in (h : heap) (k : pystr) (v : val) : result bool :=
  match v with
  | VRef l =>
      match nth_error h l with
      | Some (ODict kvs) =>
          Ok (match lookup k kvs with Some _ => true | None => false end)
      | Some (OList xs) => Ok (existsb (fun x => eq_str x k) xs)
      | None => Raise BadReference
      end
  | VStr s => Ok (is_substring k s)
  | _ => Raise TypeError
  end.

(** [len(v)] *)
Definition py_len (h : heap) (v : val) : result nat :=
  match v with
  | VRef l =>
      match nth_error h l with
      | Some (ODict kvs) => Ok (length kvs)
      | Some (OList xs) => Ok (length xs)
      | None => Raise BadReference
      end
  | VStr s => Ok (length s)
  | _ => Raise TypeError
  end.

(** [bool(v)] *)
Definition py_bool (h : heap) (v : val) : result bool :=
  match v with
  | VNone => Ok false
  | VBool b => Ok b
  | VInt z => Ok (negb (Z.eqb z 0))
  | VFloat f => Ok (float_bool f)
  | VStr s => Ok (match s with [] => false | _ => true end)
  | VRef l =>
      match nth_error h l with
      | Some (ODict kvs) => Ok (match kvs with [] => false | _ => true end)
      | Some (OList xs) => Ok (match xs with [] => false | _ => true end)
      | None => Raise BadReference
      end
  end.

(** The sequence [for x in v] runs through. *)
Definition py_iter (h : heap) (v : val) : result (list val) :=
  match v with
  | VRef l =>
      match nth_error h l with
      | Some (ODict kvs) => Ok (map (fun kv => VStr (fst kv)) kvs)
      | Some (OList xs) => Ok xs
      | None => Raise BadReference
      end
  | VStr s => Ok (map (fun c => VStr [c]) s)
  | _ => Raise TypeError
  end.

(** [v.items()] *)
Definition dict_items (h : heap) (v : val) : result (list (pystr * val)) :=
  match v with
  | VRef l =>
      match nth_error h l with
      | Some (ODict kvs) => Ok kvs
      | Some (OList _) => Raise AttributeError
      | None => Raise BadReference
      end
  | _ => Raise AttributeError
  end.

(** [repr] of a value that is no container. *)
Definition scalar_repr (v : val) : pystr :=
  match v with
  | VNone => u "None"
  | VBool true => u "True"
  | VBool false => u "False"
  | VInt z => str_of_int z
  | VFloat f => float_repr f
  | VStr s => str_repr s
  | VRef _ => []
  end.

(** [repr] of an item, given [repr] on containers. *)
Definition repr_item (container : loc -> result pystr) (v : val)
  : result pystr :=
  match v with
  | VRef l => container l
  | _ => Ok (scalar_repr v)
  end.

(** [repr] of the container at [l].  [visited] holds the containers whose
    [repr] is under way; one of them met again prints as an ellipsis. *)
Fixpoint py_repr_aux (fuel : nat) (h : heap) (visited : list loc) (l : loc)
  : result pystr :=
  match nth_error h l with
  | None => Raise BadReference
  | Some o =>
      if existsb (Nat.eqb l) visited then
        Ok (match o with OList _ => u "[...]" | ODict _ => u "{...}" end)
      else
        match fuel with
        | O => Raise RecursionError
        | S fuel' =>
            match o with
            | OList xs =>
                parts <- map_result
                  (repr_item (py_repr_aux fuel' h (l :: visited))) xs ;;
                Ok (u "[" ++ join (u ", ") parts ++ u "]")
            | ODict kvs =>
                parts <- map_result
                  (fun kv =>
                     r <- repr_item (py_repr_aux fuel' h (l :: visited))
                            (snd kv) ;;
                     Ok (str_repr (fst kv) ++ u ": " ++ r)) kvs ;;
                Ok (u "{" ++ join (u ", ") parts ++ u "}")
            end
        end
  end.

(** [repr(v)] *)
Definition py_repr (h : heap) (v : val) : result pystr :=
  repr_item (py_repr_aux recursion_limit h []) v.

(** [str(v)], which is what a replacement field [{v}] of an f-string puts. *)
Definition py_str (h : heap) (v : val) : result pystr :=
  match v with
  | VStr s => Ok s
  | _ => py_repr h v
  end.

(** [sep.join(v)]: [v] must be iterable and hold only [str]. *)
Fixpoint all_str (xs : list val) : result (list pystr) :=
  match xs with
  | [] => Ok []
  | VStr s :: rest => ss <- all_str rest ;; Ok (s :: ss)
  | _ :: _ => Raise TypeError
  end.

Definition str_join (h : heap) (sep : pystr) (v : val) : result pystr :=
  xs <- py_iter h v ;;
  ss <- all_str xs ;;
  Ok (join sep ss).

(** Looking the key [key] up among the entries [kvs] of a [dict] whose keys
    are [str]: a [list] or a [dict] is unhashable, any other value that is no
    key is a [KeyError]. *)
Definition lookup_key (h : heap) (kvs : list (pystr * val)) (key : val)
  : result val :=
  match key with
  | VStr k =>
      match lookup k kvs with Some x => Ok x | None => Raise KeyError end
  | VRef l =>
      match nth_error h l with
      | Some _ => Raise TypeError
      | None => Raise BadReference
      end
  | _ => Raise KeyError
  end.

(** [d[key]] for any key *)
Definition getitem_key (h : heap) (d : val) (key : val) : result val :=
  match d with
  | VRef l =>
      match nth_error h l with
      | Some (ODict kvs) => lookup_key h kvs key
      | Some (OList _) => Raise TypeError
      | None => Raise BadReference
      end
  | _ => Raise TypeError
  end.

(** ** Operations that write *)

Definition H (A : Type) : Type := heap -> result A * heap.

Definition ret {A} (a : A) : H A := fun h => (Ok a, h).

Definition raise {A} (e : exn) : H A := fun h => (Raise e, h).

Definition bind {A B} (m : H A) (k : A -> H B) : H B :=
  fun h =>
    match m h with
    | (Ok a, h') => k a h'
    | (Raise e, h') => (Raise e, h')
    end.

(** A computation that only reads. *)
Definition rd {A} (f : heap -> result A) : H A := fun h => (f h, h).

Notation "x <~ m ;; k" := (bind m (fun x => k))
  (at level 61, m at next level, right associativity) : py_scope.

(** A list display [[x1, ..., xn]] and a dict display: a new object. *)
Definition new_list (xs : list val) : H val :=
  fun h => (Ok (VRef (length h)), h ++ [OList xs]).

Definition new_dict (kvs : list (pystr * val)) : H val :=
  fun h => (Ok (VRef (length h)), h ++ [ODict kvs]).

Fixpoint update (a : loc) (o : obj) (h : heap) : heap :=
  match h, a with
  | [], _ => []
  | _ :: h', O => o :: h'
  | o' :: h', S a' => o' :: update a' o h'
  end.

(** [l.append(x)] *)
Definition list_append (l : val) (x : val) : H unit :=
  fun h =>
    match l with
    | VRef a =>
        match nth_error h a with
        | Some (OList xs) => (Ok tt, update a (OList (xs ++ [x])) h)
        | Some (ODict _) => (Raise AttributeError, h)
        | None => (Raise BadReference, h)
        end
    | _ => (Raise AttributeError, h)
    end.

(** [for x in xs: body], over the items the sequence holds when the loop
    starts.  The loops of this module run through a list or a dict of the
    document (or a [str]) and append to a list of their own, so the sequence
    does not change under them. *)
Fixpoint for_each {X} (xs : list X) (body : X -> H unit) : H unit :=
  match xs with
  | [] => ret tt
  | x :: xs' => _ <~ body x ;; for_each xs' body
  end.

(** ** The formatter *)

Definition warning_code_dict : list (pystr * val) :=
  [ (u "WFIRE", VStr (u "Fire Danger Warning"));
    (u "WFROST", VStr (u "Frost Warning"));
    (u "WHOT", VStr (u "Hot Weather Warning"));
    (u "WCOLD", VStr (u "Cold Weather Warning"));
    (u "WMSGNL", VStr (u "Strong Monsoon Signal"));
    (u "WTCPRE8", VStr (u "Pre-no.8 Special Announcement"));
    (u "WRAIN", VStr (u "Rainstorm Warning Signal"));
    (u "WFNTSA",
     VStr (u "Special Announcement on Flooding in the northern New Territories"));
    (u "WL", VStr (u "Landslip Warning"));
    (u "WTCSGNL", VStr (u "Tropical Cyclone Warning Signal"));
    (u "WTMW", VStr (u "Tsunami Warning"));
    (u "WTS", VStr (u "Thunderstorm Warning")) ].

(** The body of the loop of [format_warnings], up to the string it appends;
    [table] is the local [warning_code_dict]. *)
Definition format_warnings_entry (table : val) (h : heap) (warning : val)
  : result pystr :=
  c <- getitem h warning (u "warningStatementCode") ;;
  code <- getitem_key h table c ;;
  st <- dict_get h warning (u "subtype") VNone ;;
  has_subtype <- py_bool h st ;;
  subtype <- (if has_subtype
              then (x <- getitem h warning (u "subtype") ;;
                    sx <- py_str h x ;;
                    Ok (u " (" ++ sx ++ u ")"))
              else Ok []) ;;
  time <- getitem h warning (u "updateTime") ;;
  cs <- getitem h warning (u "contents") ;;
  content <- str_join h (u " ") cs ;;
  scode <- py_str h code ;;
  stime <- py_str h time ;;
  Ok (scode ++ subtype ++ u " - " ++ stime ++ u ": " ++ content).

Definition format_warnings (data : val) : H pystr :=
  details <~ rd (fun h => dict_get h data (u "details") VNone) ;;
  some <~ rd (fun h => py_bool h details) ;;
  if negb some then ret (u "No active warnings")
  else
    warnings <~ new_list [] ;;
    table <~ new_dict warning_code_dict ;;
    ds <~ rd (fun h => d <- getitem h data (u "details") ;; py_iter h d) ;;
    _ <~ for_each ds (fun warning =>
           line <~ rd (fun h => format_warnings_entry table h warning) ;;
           list_append warnings (VStr line)) ;;
    rd (fun h => str_join h (nl ++ nl) warnings).

(** The string one entry of the warning summary is rendered to. *)
Definition format_warnings_summary_entry (h : heap) (item : pystr * val)
  : result pystr :=
  let (warning_code, warning_info) := item in
  warning_name <- dict_get h warning_info (u "name") (VStr (u "Unknown")) ;;
  action <- dict_get h warning_info (u "actionCode") (VStr (u "Unknown")) ;;
  issue_time <- dict_get h warning_info (u "issueTime") (VStr (u "Unknown")) ;;
  sname <- py_str h warning_name ;;
  saction <- py_str h action ;;
  stime <- py_str h issue_time ;;
  Ok (sname ++ u " (" ++ warning_code ++ u ") - Action: " ++ saction
        ++ u ", Issued at: " ++ stime).

Definition format_warnings_summary (warnings_data : val) : H pystr :=
  final_warning_list <~ new_list [] ;;
  items <~ rd (fun h => dict_items h warnings_data) ;;
  if Nat.eqb (length items) 0 then ret (u "No warning issued.")
  else
    items' <~ rd (fun h => dict_items h warnings_data) ;;
    _ <~ for_each items' (fun item =>
           line <~ rd (fun h => format_warnings_summary_entry h item) ;;
           list_append final_warning_list (VStr line)) ;;
    rd (fun h => str_join h nl final_warning_list).

(** The degree sign, U+00B0. *)
Definition degree : pystr := [176%N].

(** The string appended for one temperature reading. *)
Definition extract_temperature_entry (h : heap) (temp : val) : result pystr :=
  place <- getitem h temp (u "place") ;;
  splace <- py_str h place ;;
  value <- getitem h temp (u "value") ;;
  svalue <- py_str h value ;;
  unit <- getitem h temp (u "unit") ;;
  sunit <- py_str h unit ;;
  Ok (splace ++ u ": " ++ svalue ++ degree ++ sunit).

(** Without the [temperature] key the local [temp] is read before any
    assignment. *)
Definition extract_temperature_data (data : val) : H pystr :=
  present <~ rd (fun h => py_in h (u "temperature") data) ;;
  if present then
    temperatures <~ rd (fun h =>
      t <- getitem h data (u "temperature") ;; getitem h t (u "data")) ;;
    record_time <~ rd (fun h =>
      t <- getitem h data (u "temperature") ;; getitem h t (u "recordTime")) ;;
    location_temp <~ new_list [] ;;
    ts <~ rd (fun h => py_iter h temperatures) ;;
    _ <~ for_each ts (fun temp =>
           line <~ rd (fun h => extract_temperature_entry h temp) ;;
           list_append location_temp (VStr line)) ;;
    header <~ rd (fun h =>
      st <- py_str h record_time ;;
      Ok (u "Temperature readings (recorded at " ++ st ++ u "):")) ;;
    body <~ rd (fun h => str_join h nl location_temp) ;;
    ret (header ++ body)
  else raise UnboundLocalError.

(** The string appended for one rainfall reading. *)
Definition extract_rainfall_entry (h : heap) (rain : val) : result pystr :=
  main <- dict_get h rain (u "main") VNone ;;
  let maintenance :=
    if eq_str main (u "TRUE") then u " Under maintenance" else u "False" in
  place <- getitem h rain (u "place") ;;
  splace <- py_str h place ;;
  max <- getitem h rain (u "max") ;;
  smax <- py_str h max ;;
  unit <- getitem h rain (u "unit") ;;
  sunit <- py_str h unit ;;
  Ok (splace ++ u ": " ++ smax ++ sunit ++ u " maintenance:" ++ maintenance).

(** Without the [rainfall] key the local [rain_location] is read before any
    assignment. *)
Definition extract_rainfall_data (data : val) : H pystr :=
  present <~ rd (fun h => py_in h (u "rainfall") data) ;;
  if present then
    rainfall_info <~ rd (fun h => getitem h data (u "rainfall")) ;;
    rainfall_data <~ rd (fun h => getitem h rainfall_info (u "data")) ;;
    rain_location <~ new_list [] ;;
    rs <~ rd (fun h => py_iter h rainfall_data) ;;
    _ <~ for_each rs (fun rain =>
           line <~ rd (fun h => extract_rainfall_entry h rain) ;;
           list_append rain_location (VStr line)) ;;
    body <~ rd (fun h => str_join h [] rain_location) ;;
    ret (u "Rainfall data:" ++ nl ++ u " " ++ body)
  else raise UnboundLocalError.

(** The text for the first humidity reading. *)
Definition extract_humidity_reading (h : heap) (data : val) : result pystr :=
  hum <- getitem h data (u "humidity") ;;
  readings <- getitem h hum (u "data") ;;
  humidity_info <- getitem0 h readings ;;
  hum' <- getitem h data (u "humidity") ;;
  record_time <- getitem h hum' (u "recordTime") ;;
  value <- getitem h humidity_info (u "value") ;;
  svalue <- py_str h value ;;
  unit <- getitem h humidity_info (u "unit") ;;
  sunit <- py_str h unit ;;
  place <- getitem h humidity_info (u "place") ;;
  splace <- py_str h place ;;
  stime <- py_str h record_time ;;
  Ok (u "Humidity: " ++ svalue ++ u " " ++ sunit ++ u " at " ++ splace
        ++ u " Recorded at: " ++ stime).

(** The default [{}] of [data.get('humidity', {})] is a new [dict] each time
    the right operand of [or] is evaluated, made once [data.get] is found. *)
Definition extract_humidity_data (data : val) : H pystr :=
  present <~ rd (fun h => py_in h (u "humidity") data) ;;
  unavailable <~ (if negb present then ret true
                  else
                    _ <~ rd (fun h => get_method h data) ;;
                    dflt <~ new_dict [] ;;
                    hum <~ rd (fun h => dict_get h data (u "humidity") dflt) ;;
                    readings <~ rd (fun h => dict_get h hum (u "data") VNone) ;;
                    some <~ rd (fun h => py_bool h readings) ;;
                    ret (negb some)) ;;
  if unavailable then ret (u "Humidty data not available")
  else rd (fun h => extract_humidity_reading h data).

Definition indent8 : pystr := u "        ".

(** The text for the first UV reading of [uvinfo]. *)
Definition extract_uv_reading (h : heap) (uvinfo : val) : result pystr :=
  readings <- getitem h uvinfo (u "data") ;;
  uv_data <- getitem0 h readings ;;
  record_desc <- getitem h uvinfo (u "recordDesc") ;;
  value <- getitem h uv_data (u "value") ;;
  svalue <- py_str h value ;;
  desc <- getitem h uv_data (u "desc") ;;
  sdesc <- py_str h desc ;;
  place <- getitem h uv_data (u "place") ;;
  splace <- py_str h place ;;
  srecord <- py_str h record_desc ;;
  Ok (u "UV Index: " ++ svalue ++ u " (" ++ sdesc ++ u ") at " ++ splace
        ++ u " " ++ nl ++ indent8 ++ u "Record description: " ++ srecord).

Definition extract_uv_index (data : val) : H pystr :=
  rd (fun h =>
    uvinfo <- dict_get h data (u "uvindex") (VStr (u "No uv index")) ;;
    n <- py_len h uvinfo ;;
    if Nat.ltb n 1 then Ok (u "No UV index")
    else extract_uv_reading h uvinfo).

Definition current_weather_process (data : val) : H pystr :=
  t <~ extract_temperature_data data ;;
  r <~ extract_rainfall_data data ;;
  m <~ extract_humidity_data data ;;
  v <~ extract_uv_index data ;;
  weather_info <~ new_list [VStr t; VStr r; VStr m; VStr v] ;;
  rd (fun h => str_join h nl weather_info).

(** One replacement field [{weather_data.get(key, dflt)}] of the [flw]
    template. *)
Definition flw_field (h : heap) (weather_data : val) (key dflt : pystr)
  : result pystr :=
  x <- dict_get h weather_data key (VStr dflt) ;;
  py_str h x.

Definition formatting_flw (h : heap) (weather_data : val) : result pystr :=
  f1 <- flw_field h weather_data (u "generalSituation") (u "Unknown") ;;
  f2 <- flw_field h weather_data (u "tcInfo") (u "Unkown") ;;
  f3 <- flw_field h weather_data (u "fireDangerWarning") (u "No fire Danger") ;;
  f4 <- flw_field h weather_data (u "forecastPeriod")
          (u "Forecast Period not provided") ;;
  f5 <- flw_field h weather_data (u "forecastDesc")
          (u "No forecast description available") ;;
  f6 <- flw_field h weather_data (u "outlook") (u "No outlook available") ;;
  f7 <- flw_field h weather_data (u "updateTime")
          (u "No update time available") ;;
  Ok (nl ++ indent8 ++ u "General Situation: " ++ f1
      ++ nl ++ indent8 ++ u "tcInfo: " ++ f2
      ++ nl ++ indent8 ++ u "fireDangerWarning: " ++ f3
      ++ nl ++ indent8 ++ u "forecastPeriod: " ++ f4
      ++ nl ++ indent8 ++ u "forecastDesc: " ++ f5
      ++ nl ++ indent8 ++ u "outlook: " ++ f6
      ++ nl ++ indent8 ++ u "updateTime: " ++ f7
      ++ nl ++ indent8).

(** The whitespace that follows the backslash-newline inside the f-string of
    the [fnd] branch: the twelve spaces that indent its second line. *)
Definition fnd_continuation : pystr := u "            ".

(** The line for one forecast day. *)
Definition formatting_fnd_day (h : heap) (day : val) : result pystr :=
  week <- getitem h day (u "week") ;;
  sweek <- py_str h week ;;
  date <- getitem h day (u "forecastDate") ;;
  sdate <- py_str h date ;;
  weather <- getitem h day (u "forecastWeather") ;;
  sweather <- py_str h weather ;;
  mintemp <- getitem h day (u "forecastMintemp") ;;
  minv <- getitem h mintemp (u "value") ;;
  smin <- py_str h minv ;;
  maxtemp <- getitem h day (u "forecastMaxtemp") ;;
  maxv <- getitem h maxtemp (u "value") ;;
  smax <- py_str h maxv ;;
  maxtemp' <- getitem h day (u "forecastMaxtemp") ;;
  unit <- getitem h maxtemp' (u "unit") ;;
  sunit <- py_str h unit ;;
  Ok (sweek ++ u " (" ++ sdate ++ u "): " ++ sweather ++ u ", " ++ smin
        ++ u "-" ++ smax ++ fnd_continuation ++ sunit).

Definition formatting_fnd (h : heap) (weather_data : val) : result pystr :=
  weekly_weather_list <- getitem h weather_data (u "weatherForecast") ;;
  days <- py_iter h weekly_weather_list ;;
  lines <- map_result (formatting_fnd_day h) days ;;
  Ok (join nl lines).

(** The line for one special weather tip. *)
Definition formatting_swt_tip (h : heap) (tips : val) : result pystr :=
  t <- dict_get h tips (u "updateTime") (VStr (u "time unknown")) ;;
  st <- py_str h t ;;
  d <- dict_get h tips (u "desc") (VStr (u "no description")) ;;
  sd <- py_str h d ;;
  Ok (st ++ u ": " ++ sd).

Definition formatting_swt (h : heap) (weather_data : val) : result pystr :=
  special_weather_tips_list <- getitem h weather_data (u "swt") ;;
  tips <- py_iter h special_weather_tips_list ;;
  lines <- map_result (formatting_swt_tip h) tips ;;
  Ok (join nl lines).

Definition some_str (m : H pystr) : H (option pystr) :=
  s <~ m ;; ret (Some s).

(** The result is [None] when no branch matches [dataType]. *)
Definition formatting_weather (weather_data : val) (dataType : pystr)
  : H (option pystr) :=
  if pystr_eqb dataType (u "flw") then
    some_str (rd (fun h => formatting_flw h weather_data))
  else if pystr_eqb dataType (u "fnd") then
    some_str (rd (fun h => formatting_fnd h weather_data))
  else if pystr_eqb dataType (u "rhrread") then
    some_str (current_weather_process weather_data)
  else if pystr_eqb dataType (u "warnsum") then
    some_str (format_warnings_summary weather_data)
  else if pystr_eqb dataType (u "warningInfo") then
    some_str (format_warnings weather_data)
  else if pystr_eqb dataType (u "swt") then
    some_str (rd (fun h => formatting_swt h weather_data))
  else ret None.

(** ** JSON documents and [response.json()] *)

Inductive json : Type :=
| JNull
| JBool (b : bool)
| JInt (z : Z)
| JFloat (f : pyfloat)
| JStr (s : pystr)
| JArr (xs : list json)
| JObj (kvs : list (pystr * json)).

(** [f] on every item in turn, up to the first that raises. *)
Definition for_all {A B} (f : A -> H B) : list A -> H (list B) :=
  fix for_all_items (xs : list A) : H (list B) :=
    match xs with
    | [] => ret []
    | x :: rest => v <~ f x ;; vs <~ for_all_items rest ;; ret (v :: vs)
    end.

(** The Python value of a parsed document: every array is a new [list] and
    every object a new [dict]; of a repeated key the last value stays, at the
    place of the first. *)
Fixpoint load (d : json) : H val :=
  match d with
  | JNull => ret VNone
  | JBool b => ret (VBool b)
  | JInt z => ret (VInt z)
  | JFloat f => ret (VFloat f)
  | JStr s => ret (VStr s)
  | JArr xs =>
      vs <~ for_all load xs ;;
      new_list vs
  | JObj kvs =>
      es <~ for_all (fun kv => v <~ load (snd kv) ;; ret (fst kv, v)) kvs ;;
      new_dict (fold_left (fun acc kv => dict_set (fst kv) (snd kv) acc) es [])
  end.

(** ** The fetcher and the entry tool *)

(** What [await client.get(...)] comes to: a response (its status, and its
    body when that is a JSON text), or an exception, be it one that httpx
    raises or the [CancelledError] that the event loop raises there. *)
Inductive reply : Type :=
| Response (status : Z) (body : option json)
| Failure (e : exn).

(** The upstream service: the reply to a request, given the earlier ones. *)
Variable upstream : list pystr -> pystr -> reply.

(** The order in which the two [set] literals of [get_weather] iterate. *)
Variable dataType_set_order : list pystr.
Variable lang_set_order : list pystr.

(** One entry for each call of [print]: which call it is, and what it is
    given.  The text a call writes is not modelled (the message of an httpx
    error can hold more than one line). *)
Inductive log_line : Type :=
| LogRequestingURL (url : pystr)
| LogHTTPError (status : Z)
| LogRequestError
| LogUnexpectedError (e : exn).

Record world : Type := World {
  objects : heap;
  requests : list pystr;
  stdout : list log_line
}.

Definition W (A : Type) : Type := world -> result A * world.

Definition wret {A} (a : A) : W A := fun w => (Ok a, w).

Definition wbind {A B} (m : W A) (k : A -> W B) : W B :=
  fun w =>
    match m w with
    | (Ok a, w') => k a w'
    | (Raise e, w') => (Raise e, w')
    end.

Notation "x <~~ m ;; k" := (wbind m (fun x => k))
  (at level 61, m at next level, right associativity) : py_scope.

Definition wraise {A} (e : exn) : W A := fun w => (Raise e, w).

(** [try: m  except ...: handler] *)
Definition try_except {A} (m : W A) (handler : exn -> W A) : W A :=
  fun w =>
    match m w with
    | (Ok a, w') => (Ok a, w')
    | (Raise e, w') => handler e w'
    end.

Definition on_heap {A} (m : H A) : W A :=
  fun w =>
    let (r, h') := m (objects w) in
    (r, World h' (requests w) (stdout w)).

Definition print (l : log_line) : W unit :=
  fun w => (Ok tt, World (objects w) (requests w) (stdout w ++ [l])).

(** [await client.get(url, ...)]: one request goes out. *)
Definition client_get (url : pystr) : W (Z * option json) :=
  fun w =>
    let w' := World (objects w) (requests w ++ [url]) (stdout w) in
    match upstream (requests w) url with
    | Response status body => (Ok (status, body), w')
    | Failure e => (Raise e, w')
    end.

(** [response.raise_for_status()]: httpx raises [HTTPStatusError] for every
    status outside 200..299. *)
Definition raise_for_status (status : Z) : W unit :=
  if Z.leb 200 status && Z.leb status 299 then wret tt
  else wraise (HTTPStatusError status).

(** [response.json()] *)
Definition response_json (body : option json) : W val :=
  match body with
  | Some d => on_heap (load d)
  | None => wraise ValueError
  end.

Definition HKO_API_BASE : pystr :=
  u "https://data.weather.gov.hk/weatherAPI/opendata/weather.php".

(** The three handlers differ in what they print.  The last clause is
    [except Exception]: an exception that is no [Exception] matches no
    clause and leaves the [try] as it came.  Making and closing the
    [AsyncClient], which stand outside the [try], are taken to succeed. *)
Definition make_hko_weather_request (url : pystr) : W val :=
  try_except
    (response <~~ client_get url ;;
     _ <~~ raise_for_status (fst response) ;;
     response_json (snd response))
    (fun e =>
       match e with
       | HTTPStatusError status => _ <~~ print (LogHTTPError status) ;; wret VNone
       | RequestError => _ <~~ print LogRequestError ;; wret VNone
       | _ =>
           if is_Exception e then
             _ <~~ print (LogUnexpectedError e) ;; wret VNone
           else wraise e
       end).

Definition dataType_set : list pystr :=
  [u "flw"; u "fnd"; u "rhrread"; u "warnsum"; u "warningInfo"; u "swt"].

Definition lang_set : list pystr := [u "en"; u "tc"; u "sc"].

(** [x in s] for a [set] of [str] *)
Definition set_mem (x : pystr) (s : list pystr) : bool :=
  existsb (pystr_eqb x) s.

(** [str] of a non-empty [set] of [str] that iterates in [order] *)
Definition set_str (order : list pystr) : pystr :=
  u "{" ++ join (u ", ") (map str_repr order) ++ u "}".

Definition invalid_input_message : pystr :=
  u "Invalid dataType or lang. Use dataType in " ++ set_str dataType_set_order
    ++ u " and " ++ set_str lang_set_order.

Definition get_weather (dataType lang : pystr) : W (option pystr) :=
  if negb (set_mem dataType dataType_set) || negb (set_mem lang lang_set) then
    wret (Some invalid_input_message)
  else
    let url := HKO_API_BASE ++ u "?dataType=" ++ dataType ++ u "&lang=" ++ lang in
    _ <~~ print (LogRequestingURL url) ;;
    data <~~ make_hko_weather_request url ;;
    match data with
    | VNone => wret (Some (u "Data is None"))
    | _ => on_heap (formatting_weather data dataType)
    end.

(** ** Well-formed heaps

    A reference is valid below [n] when it points at one of the first [n]
    objects; a heap is well formed when no object of it holds a reference
    out of it. *)

Definition validb (n : nat) (v : val) : bool :=
  match v with
  | VRef l => Nat.ltb l n
  | _ => true
  end.

Definition obj_validb (n : nat) (o : obj) : bool :=
  match o with
  | OList xs => forallb (validb n) xs
  | ODict kvs => forallb (fun kv => validb n (snd kv)) kvs
  end.

Definition wf_heap (h : heap) : bool :=
  forallb (obj_validb (length h)) h.

(** [v] is a reference to a [dict] with the entries [kvs], to a [list] with
    the items [xs]. *)
Definition is_dict (h : heap) (v : val) (kvs : list (pystr * val)) : Prop :=
  exists l, v = VRef l /\ nth_error h l = Some (ODict kvs).

Definition is_list (h : heap) (v : val) (xs : list val) : Prop :=
  exists l, v = VRef l /\ nth_error h l = Some (OList xs).

(** ** What the renderers return, as a function of the heap they start in *)

(** The heap the loop of [format_warnings] starts in, and the local
    [warning_code_dict] in it. *)
Definition format_warnings_heap (h : heap) : heap :=
  h ++ [OList []; ODict warning_code_dict].

Definition format_warnings_table (h : heap) : val := VRef (S (length h)).

Definition format_warnings_value (h : heap) (data : val) : result pystr :=
  details <- dict_get h data (u "details") VNone ;;
  some <- py_bool h details ;;
  if negb some then Ok (u "No active warnings")
  else
    ds <- (d <- getitem h data (u "details") ;; py_iter h d) ;;
    lines <- map_result
      (format_warnings_entry (format_warnings_table h) (format_warnings_heap h))
      ds ;;
    Ok (join (nl ++ nl) lines).

Definition format_warnings_summary_value (h : heap) (warnings_data : val)
  : result pystr :=
  items <- dict_items h warnings_data ;;
  if Nat.eqb (length items) 0 then Ok (u "No warning issued.")
  else
    lines <- map_result (format_warnings_summary_entry h) items ;;
    Ok (join nl lines).

Definition extract_temperature_data_value (h : heap) (data : val)
  : result pystr :=
  present <- py_in h (u "temperature") data ;;
  if present then
    temperatures <- (t <- getitem h data (u "temperature") ;;
                     getitem h t (u "data")) ;;
    record_time <- (t <- getitem h data (u "temperature") ;;
                    getitem h t (u "recordTime")) ;;
    ts <- py_iter h temperatures ;;
    lines <- map_result (extract_temperature_entry h) ts ;;
    st <- py_str h record_time ;;
    Ok ((u "Temperature readings (recorded at " ++ st ++ u "):")
          ++ join nl lines)
  else Raise UnboundLocalError.

Definition extract_rainfall_data_value (h : heap) (data : val)
  : result pystr :=
  present <- py_in h (u "rainfall") data ;;
  if present then
    rainfall_info <- getitem h data (u "rainfall") ;;
    rainfall_data <- getitem h rainfall_info (u "data") ;;
    rs <- py_iter h rainfall_data ;;
    lines <- map_result (extract_rainfall_entry h) rs ;;
    Ok (u "Rainfall data:" ++ nl ++ u " " ++ join [] lines)
  else Raise UnboundLocalError.

Definition extract_humidity_data_value (h : heap) (data : val)
  : result pystr :=
  present <- py_in h (u "humidity") data ;;
  unavailable <- (if negb present then Ok true
                  else
                    _ <- get_method h data ;;
                    hum <- dict_get h data (u "humidity") VNone ;;
                    readings <- dict_get h hum (u "data") VNone ;;
                    some <- py_bool h readings ;;
                    Ok (negb some)) ;;
  if unavailable then Ok (u "Humidty data not available")
  else extract_humidity_reading h data.

Definition current_weather_process_value (h : heap) (data : val)
  : result pystr :=
  t <- extract_temperature_data_value h data ;;
  r <- extract_rainfall_data_value h data ;;
  m <- extract_humidity_data_value h data ;;
  v <- fst (extract_uv_index data h) ;;
  Ok (join nl [t; r; m; v]).

Definition some_result (r : result pystr) : result (option pystr) :=
  s <- r ;; Ok (Some s).

Definition formatting_weather_value (h : heap) (weather_data : val)
  (dataType : pystr) : result (option pystr) :=
  if pystr_eqb dataType (u "flw") then
    some_result (formatting_flw h weather_data)
  else if pystr_eqb dataType (u "fnd") then
    some_result (formatting_fnd h weather_data)
  else if pystr_eqb dataType (u "rhrread") then
    some_result (current_weather_process_value h weather_data)
  else if pystr_eqb dataType (u "warnsum") then
    some_result (format_warnings_summary_value h weather_data)
  else if pystr_eqb dataType (u "warningInfo") then
    some_result (format_warnings_value h weather_data)
  else if pystr_eqb dataType (u "swt") then
    some_result (formatting_swt h weather_data)
  else Ok None.

(** A code that is one of the twelve of [warning_code_dict]. *)
Definition known_code (c : val) : bool :=
  match c with
  | VStr k => match lookup k warning_code_dict with Some _ => true | None => false end
  | _ => false
  end.

(** A value that can be the key of a [dict]. *)
Definition hashable (c : val) : bool :=
  match c with
  | VRef _ => false
  | _ => true
  end.


(** ** Documents *)

(** [f] called on the document [d], parsed into an empty heap. *)
Definition on_document {A} (d : json) (f : val -> H A) : result A :=
  fst (bind (load d) f []).

Definition jstr (s : string) : json := JStr (u s).

Definition jobj (kvs : list (string * json)) : json :=
  JObj (map (fun kv => (u (fst kv), snd kv)) kvs).

Definition red_rain_document : json :=
  jobj [("details"%string,
         JArr [jobj [("warningStatementCode"%string, jstr "WRAIN");
                     ("updateTime"%string, jstr "t1");
                     ("contents"%string,
                      JArr [jstr "Red rain warning in force."])]])].

Definition unknown_code_document : json :=
  jobj [("details"%string,
         JArr [jobj [("warningStatementCode"%string, jstr "WRAIN");
                     ("updateTime"%string, jstr "t1");
                     ("contents"%string,
                      JArr [jstr "Red rain warning in force."])];
               jobj [("warningStatementCode"%string, jstr "WXYZ");
                     ("updateTime"%string, jstr "t2");
                     ("contents"%string, JArr [jstr "Unheard of."])]])].

Definition monday_document : json :=
  jobj [("weatherForecast"%string,
         JArr [jobj [("week"%string, jstr "Monday");
                     ("forecastDate"%string, jstr "20240101");
                     ("forecastWeather"%string, jstr "Sunny");
                     ("forecastMintemp"%string,
                      jobj [("value"%string, JInt 15)]);
                     ("forecastMaxtemp"%string,
                      jobj [("value"%string, JInt 22);
                            ("unit"%string, jstr "C")])]])].

Definition tc1_document : json :=
  jobj [("TC1"%string,
         jobj [("name"%string, jstr "Tropical Cyclone Warning");
               ("actionCode"%string, jstr "ISSUE");
               ("issueTime"%string, jstr "2024-01-01T00:00")])].


Definition empty_humidity_document (t : pystr) : json :=
  jobj [("humidity"%string,
         jobj [("data"%string, JArr []); ("recordTime"%string, JStr t)])].

Definition humidity_document : json :=
  jobj [("humidity"%string,
         jobj [("recordTime"%string, jstr "t");
               ("data"%string,
                JArr [jobj [("unit"%string, jstr "percent");
                            ("value"%string, JInt 80);
                            ("place"%string, jstr "Hong Kong Observatory")];
                      jobj [("unit"%string, jstr "percent");
                            ("value"%string, JInt 75);
                            ("place"%string, jstr "Elsewhere")]])])].

Definition two_temperatures_document : json :=
  jobj [("temperature"%string,
         jobj [("recordTime"%string, jstr "t");
               ("data"%string,
                JArr [jobj [("place"%string, jstr "A");
                            ("value"%string, JInt 20);
                            ("unit"%string, jstr "C")];
                      jobj [("place"%string, jstr "B");
                            ("value"%string, JInt 21);
                            ("unit"%string, jstr "C")]])])].

Definition uvindex_document : json :=
  jobj [("uvindex"%string,
         jobj [("data"%string,
                JArr [jobj [("place"%string, jstr "King's Park");
                            ("value"%string, JInt 2);
                            ("desc"%string, jstr "low")]]);
               ("recordDesc"%string, jstr "During the past hour")])].

Definition no_uvindex_document : json := jobj [].

(** ** Computations that leave every object of the heap they start in as it
    was, and may add new ones *)

Definition grows {A} (m : H A) : Prop :=
  forall h, exists L, snd (m h) = h ++ L.

(** The same, but for the list at [a], whose items may change. *)
Definition grows_at {A} (a : loc) (m : H A) : Prop :=
  forall h1 acc h2, length h1 = a ->
    exists acc' L,
      snd (m (h1 ++ OList acc :: h2)) = h1 ++ OList acc' :: h2 ++ L.

(** ** Induction on documents *)

Section JsonInduction.

Variable P : json -> Prop.
Hypothesis PNull : P JNull.
Hypothesis PBool : forall b, P (JBool b).
Hypothesis PInt : forall z, P (JInt z).
Hypothesis PFloat : forall f, P (JFloat f).
Hypothesis PStr : forall s, P (JStr s).
Hypothesis PArr : forall xs, Forall P xs -> P (JArr xs).
Hypothesis PObj : forall kvs, Forall (fun kv => P (snd kv)) kvs -> P (JObj kvs).

Fixpoint json_induction (d : json) : P d :=
  match d with
  | JNull => PNull
  | JBool b => PBool b
  | JInt z => PInt z
  | JFloat f => PFloat f
  | JStr s => PStr s
  | JArr xs =>
      PArr ((fix all (xs : list json) : Forall P xs :=
               match xs with
               | [] => Forall_nil P
               | x :: rest => Forall_cons x (json_induction x) (all rest)
               end) xs)
  | JObj kvs =>
      PObj ((fix all (kvs : list (pystr * json))
               : Forall (fun kv => P (snd kv)) kvs :=
               match kvs with
               | [] => Forall_nil _
               | kv :: rest =>
                   Forall_cons kv (json_induction (snd kv)) (all rest)
               end) kvs)
  end.

End JsonInduction.

(** ** The lines of the renderers, for records of the documented shape *)

(** [line] is the segment of the temperature reading [t]: a [dict] with a
    [place], a [value] and a [unit]. *)
Definition temperature_segment (h : heap) (t : val) (line : pystr) : Prop :=
  exists kvs place value unit splace svalue sunit,
    is_dict h t kvs
    /\ lookup (u "place") kvs = Some place
    /\ lookup (u "value") kvs = Some value
    /\ lookup (u "unit") kvs = Some unit
    /\ py_str h place = Ok splace
    /\ py_str h value = Ok svalue
    /\ py_str h unit = Ok sunit
    /\ line = splace ++ u ": " ++ svalue ++ degree ++ sunit.



(** The heap a document is parsed into, starting from the empty one. *)
Definition heap_of (d : json) : heap := snd (load d []).

(** What a computation that parses leaves: a well-formed heap that is no
    shorter, in which what it returns is valid. *)
Definition parses_well {A} (valid : nat -> A -> bool) (m : H A) : Prop :=
  forall h a h',
    wf_heap h = true -> m h = (Ok a, h') ->
    wf_heap h' = true /\ valid (length h') a = true /\ length h <= length h'.

(** ** More lines of the renderers, and more documents *)

(** The value of the key [k], or the string [dflt]. *)
Definition field_or (kvs : list (pystr * val)) (k dflt : pystr) : val :=
  match lookup k kvs with
  | Some x => x
  | None => VStr dflt
  end.

(** [line] is the segment of the rainfall reading [rain]: a [dict] with a
    [place], a [max] and a [unit]; the flag reads [ Under maintenance] when
    its [main] is the string [TRUE], and [False] otherwise. *)
Definition rainfall_segment (h : heap) (rain : val) (line : pystr) : Prop :=
  exists kvs place max unit splace smax sunit,
    is_dict h rain kvs
    /\ lookup (u "place") kvs = Some place
    /\ lookup (u "max") kvs = Some max
    /\ lookup (u "unit") kvs = Some unit
    /\ py_str h place = Ok splace
    /\ py_str h max = Ok smax
    /\ py_str h unit = Ok sunit
    /\ line = splace ++ u ": " ++ smax ++ sunit ++ u " maintenance:"
              ++ (if eq_str (match lookup (u "main") kvs with
                             | Some m => m
                             | None => VNone
                             end) (u "TRUE")
                  then u " Under maintenance" else u "False").

(** [suffix] is what a warning record with the entries [kvs] puts after the
    name of the warning: its [subtype] in brackets when it has one that is
    true, and nothing otherwise. *)
Definition subtype_suffix (h : heap) (kvs : list (pystr * val))
  (suffix : pystr) : Prop :=
  match lookup (u "subtype") kvs with
  | None => suffix = []
  | Some st =>
      (py_bool h st = Ok false /\ suffix = [])
      \/ (py_bool h st = Ok true
          /\ exists s, py_str h st = Ok s /\ suffix = u " (" ++ s ++ u ")")
  end.

(** [line] is the text of the warning record [w]: a [dict] with a
    [warningStatementCode] of [warning_code_dict], an [updateTime] and the
    list [contents] of strings. *)
Definition warning_line (h : heap) (w : val) (line : pystr) : Prop :=
  exists kvs code name time stime contents cs suffix,
    is_dict h w kvs
    /\ lookup (u "warningStatementCode") kvs = Some (VStr code)
    /\ lookup code warning_code_dict = Some (VStr name)
    /\ subtype_suffix h kvs suffix
    /\ lookup (u "updateTime") kvs = Some time
    /\ py_str h time = Ok stime
    /\ lookup (u "contents") kvs = Some contents
    /\ is_list h contents (map VStr cs)
    /\ line = name ++ suffix ++ u " - " ++ stime ++ u ": " ++ join (u " ") cs.


(** The reply gives [get_weather] no document: an exception that is an
    [Exception], a status outside 200..299, a body that is no JSON text, or
    the JSON [null]. *)
Definition no_document (r : reply) : Prop :=
  match r with
  | Response status (Some d) => (status < 200 \/ 299 < status)%Z \/ d = JNull
  | Response _ None => True
  | Failure e => is_Exception e = true
  end.

(** The URL [get_weather] asks for. *)
Definition request_url (dataType lang : pystr) : pystr :=
  HKO_API_BASE ++ u "?dataType=" ++ dataType ++ u "&lang=" ++ lang.

Definition rainfall_document : json :=
  jobj [("rainfall"%string,
         jobj [("data"%string,
                JArr [jobj [("unit"%string, jstr "mm");
                            ("place"%string, jstr "Sha Tin");
                            ("max"%string, JInt 0);
                            ("main"%string, jstr "FALSE")];
                      jobj [("unit"%string, jstr "mm");
                            ("place"%string, jstr "Tai Po");
                            ("max"%string, JInt 3);
                            ("main"%string, jstr "TRUE")]])])].

Definition two_warnings_document : json :=
  jobj [("details"%string,
         JArr [jobj [("warningStatementCode"%string, jstr "WTCSGNL");
                     ("subtype"%string, jstr "TC8NE");
                     ("updateTime"%string, jstr "t1");
                     ("contents"%string,
                      JArr [jstr "Signal No. 8 is in force."; jstr "Stay indoors."])];
               jobj [("warningStatementCode"%string, jstr "WHOT");
                     ("updateTime"%string, jstr "t2");
                     ("contents"%string, JArr [jstr "Very hot."])]])].


Definition situation_document : json :=
  jobj [("generalSituation"%string, jstr "A ridge of high pressure");
        ("updateTime"%string, jstr "t1")].

Definition full_rhrread_document : json :=
  jobj [("temperature"%string,
         jobj [("recordTime"%string, jstr "t");
               ("data"%string,
                JArr [jobj [("place"%string, jstr "A");
                            ("value"%string, JInt 20);
                            ("unit"%string, jstr "C")]])]);
        ("rainfall"%string, jobj [("data"%string, JArr [])]);
        ("uvindex"%string, jstr "")].

Unset Implicit Arguments.

(** ** Strings and results *)

Lemma pystr_eqb_eq (a b : pystr) : pystr_eqb a b = true <-> a = b.
Proof.
  revert b; induction a as [|x a IH]; intros [|y b]; simpl;
    try (split; [discriminate | discriminate]); try tauto.
  rewrite andb_true_iff, N.eqb_eq, IH.
  split; [intros [-> ->]; reflexivity | intros E; inversion E; auto].
Qed.

Lemma pystr_eqb_refl (a : pystr) : pystr_eqb a a = true.
Proof. apply pystr_eqb_eq; reflexivity. Qed.

Lemma set_mem_In (x : pystr) (s : list pystr) :
  set_mem x s = true <-> In x s.
Proof.
  unfold set_mem; rewrite existsb_exists; split.
  - intros [y [Hy E]]; apply pystr_eqb_eq in E; subst; assumption.
  - intros Hx; exists x; split; [assumption | apply pystr_eqb_refl].
Qed.

Lemma map_result_ext {A B} (f g : A -> result B) (xs : list A) :
  (forall x, In x xs -> f x = g x) -> map_result f xs = map_result g xs.
Proof.
  induction xs as [|x xs IH]; intros Hfg; simpl; [reflexivity|].
  rewrite (Hfg x) by (left; reflexivity).
  rewrite IH by (intros y Hy; apply Hfg; right; assumption).
  reflexivity.
Qed.

Lemma all_str_map_VStr (ss : list pystr) : all_str (map VStr ss) = Ok ss.
Proof.
  induction ss as [|s ss IH]; simpl; [reflexivity|].
  rewrite IH; reflexivity.
Qed.

(** ** Reading a heap that has grown *)

Lemma validb_lt (n : nat) (l : loc) : validb n (VRef l) = true -> l < n.
Proof. simpl; apply Nat.ltb_lt. Qed.

Lemma nth_error_grown (h L : heap) (l : loc) :
  validb (length h) (VRef l) = true -> nth_error (h ++ L) l = nth_error h l.
Proof. intros Hl; apply nth_error_app1, validb_lt, Hl. Qed.

Lemma nth_error_validb (h : heap) (l : loc) (o : obj) :
  nth_error h l = Some o -> validb (length h) (VRef l) = true.
Proof.
  intros E; simpl; apply Nat.ltb_lt, nth_error_Some; congruence.
Qed.

Lemma wf_heap_obj (h : heap) (l : loc) (o : obj) :
  wf_heap h = true -> nth_error h l = Some o ->
  obj_validb (length h) o = true.
Proof.
  unfold wf_heap; intros Hwf E.
  rewrite forallb_forall in Hwf; apply Hwf; eapply nth_error_In; eassumption.
Qed.

Lemma lookup_validb (n : nat) (k : pystr) (kvs : list (pystr * val)) (x : val) :
  forallb (fun kv => validb n (snd kv)) kvs = true ->
  lookup k kvs = Some x -> validb n x = true.
Proof.
  induction kvs as [|[k' v] kvs IH]; simpl; [discriminate|].
  rewrite andb_true_iff; intros [Hv Hr].
  destruct (pystr_eqb k k'); [intros E; inversion E; subst; assumption | auto].
Qed.

Lemma is_dict_validb (h : heap) (v : val) (kvs : list (pystr * val)) :
  is_dict h v kvs -> validb (length h) v = true.
Proof. intros [l [-> E]]; eapply nth_error_validb; eassumption. Qed.

Lemma is_list_validb (h : heap) (v : val) (xs : list val) :
  is_list h v xs -> validb (length h) v = true.
Proof. intros [l [-> E]]; eapply nth_error_validb; eassumption. Qed.

Lemma is_dict_lookup_validb (h : heap) (v x : val) (kvs : list (pystr * val))
  (k : pystr) :
  wf_heap h = true -> is_dict h v kvs -> lookup k kvs = Some x ->
  validb (length h) x = true.
Proof.
  intros Hwf [l [-> E]] Hk.
  eapply lookup_validb; [|eassumption].
  apply (@wf_heap_obj _ _ _ Hwf E).
Qed.

Lemma is_list_In_validb (h : heap) (v x : val) (xs : list val) :
  wf_heap h = true -> is_list h v xs -> In x xs ->
  validb (length h) x = true.
Proof.
  intros Hwf [l [-> E]] Hx.
  pose proof (@wf_heap_obj _ _ _ Hwf E) as Ho; simpl in Ho.
  rewrite forallb_forall in Ho; auto.
Qed.

Section Grown.

Variables (h L : heap).
Hypothesis Hwf : wf_heap h = true.

Lemma dict_get_grown v k dflt :
  validb (length h) v = true ->
  dict_get (h ++ L) v k dflt = dict_get h v k dflt.
Proof.
  intros Hv; destruct v; simpl; try reflexivity.
  rewrite nth_error_grown by assumption; reflexivity.
Qed.

Lemma get_method_grown v :
  validb (length h) v = true -> get_method (h ++ L) v = get_method h v.
Proof.
  intros Hv; destruct v; simpl; try reflexivity.
  rewrite nth_error_grown by assumption; reflexivity.
Qed.

Lemma getitem_grown v k :
  validb (length h) v = true -> getitem (h ++ L) v k = getitem h v k.
Proof.
  intros Hv; destruct v; simpl; try reflexivity.
  rewrite nth_error_grown by assumption; reflexivity.
Qed.

Lemma getitem0_grown v :
  validb (length h) v = true -> getitem0 (h ++ L) v = getitem0 h v.
Proof.
  intros Hv; destruct v; simpl; try reflexivity.
  rewrite nth_error_grown by assumption; reflexivity.
Qed.

Lemma py_in_grown k v :
  validb (length h) v = true -> py_in (h ++ L) k v = py_in h k v.
Proof.
  intros Hv; destruct v; simpl; try reflexivity.
  rewrite nth_error_grown by assumption; reflexivity.
Qed.

Lemma py_len_grown v :
  validb (length h) v = true -> py_len (h ++ L) v = py_len h v.
Proof.
  intros Hv; destruct v; simpl; try reflexivity.
  rewrite nth_error_grown by assumption; reflexivity.
Qed.

Lemma py_bool_grown v :
  validb (length h) v = true -> py_bool (h ++ L) v = py_bool h v.
Proof.
  intros Hv; destruct v; simpl; try reflexivity.
  rewrite nth_error_grown by assumption; reflexivity.
Qed.

Lemma py_iter_grown v :
  validb (length h) v = true -> py_iter (h ++ L) v = py_iter h v.
Proof.
  intros Hv; destruct v; simpl; try reflexivity.
  rewrite nth_error_grown by assumption; reflexivity.
Qed.

Lemma dict_items_grown v :
  validb (length h) v = true -> dict_items (h ++ L) v = dict_items h v.
Proof.
  intros Hv; destruct v; simpl; try reflexivity.
  rewrite nth_error_grown by assumption; reflexivity.
Qed.

Lemma lookup_key_grown kvs key :
  validb (length h) key = true ->
  lookup_key (h ++ L) kvs key = lookup_key h kvs key.
Proof.
  intros Hv; destruct key; simpl; try reflexivity.
  rewrite nth_error_grown by assumption; reflexivity.
Qed.

Lemma str_join_grown sep v :
  validb (length h) v = true -> str_join (h ++ L) sep v = str_join h sep v.
Proof.
  intros Hv; unfold str_join; rewrite py_iter_grown by assumption; reflexivity.
Qed.

Lemma py_repr_aux_grown fuel : forall visited l,
  validb (length h) (VRef l) = true ->
  py_repr_aux fuel (h ++ L) visited l = py_repr_aux fuel h visited l.
Proof.
  induction fuel as [|fuel IH]; intros visited l Hv; simpl;
    rewrite nth_error_grown by assumption;
    destruct (nth_error h l) as [o|] eqn:E; try reflexivity.
  destruct (existsb (Nat.eqb l) visited); [reflexivity|].
  pose proof (@wf_heap_obj _ _ _ Hwf E) as Ho.
  destruct o as [xs|kvs]; simpl in Ho; rewrite forallb_forall in Ho.
  - rewrite (map_result_ext
               (repr_item (py_repr_aux fuel (h ++ L) (l :: visited)))
               (repr_item (py_repr_aux fuel h (l :: visited))));
      [reflexivity|].
    intros x Hx; specialize (Ho x Hx).
    destruct x; try reflexivity; apply IH; assumption.
  - match goal with
    | |- rbind (map_result ?f ?l) _ = rbind (map_result ?g ?l) _ =>
        rewrite (map_result_ext f g)
    end; [reflexivity|].
    intros [k x] Hkv; specialize (Ho (k, x) Hkv); simpl in Ho.
    destruct x; try reflexivity; simpl; rewrite IH by assumption; reflexivity.
Qed.

Lemma py_str_grown v :
  validb (length h) v = true -> py_str (h ++ L) v = py_str h v.
Proof.
  intros Hv; destruct v; try reflexivity.
  apply py_repr_aux_grown; assumption.
Qed.

End Grown.

(** ** What is read from a well-formed heap is valid in it *)

Section Valid.

Variable h : heap.
Hypothesis Hwf : wf_heap h = true.

Lemma dict_get_validb v k dflt x :
  dict_get h v k dflt = Ok x ->
  validb (length h) dflt = true -> validb (length h) x = true.
Proof.
  intros Ex Hd; revert Ex.
  destruct v as [| | | | |l]; simpl; try discriminate.
  destruct (nth_error h l) as [[xs|kvs]|] eqn:E; try discriminate.
  pose proof (@wf_heap_obj _ _ _ Hwf E) as Ho; simpl in Ho.
  destruct (lookup k kvs) eqn:Ek; intros Ex; inversion Ex; subst;
    [eapply lookup_validb; eassumption | assumption].
Qed.

Lemma getitem_validb v k x :
  getitem h v k = Ok x -> validb (length h) x = true.
Proof.
  destruct v as [| | | | |l]; simpl; try discriminate.
  destruct (nth_error h l) as [[xs|kvs]|] eqn:E; try discriminate.
  pose proof (@wf_heap_obj _ _ _ Hwf E) as Ho; simpl in Ho.
  destruct (lookup k kvs) eqn:Ek; intros Ex; inversion Ex; subst.
  eapply lookup_validb; eassumption.
Qed.

Lemma getitem0_validb v x :
  getitem0 h v = Ok x -> validb (length h) x = true.
Proof.
  destruct v as [| | | | [|c s] |l]; simpl; try discriminate.
  - intros Ex; inversion Ex; reflexivity.
  - destruct (nth_error h l) as [[[|y xs]|kvs]|] eqn:E; try discriminate.
    pose proof (@wf_heap_obj _ _ _ Hwf E) as Ho; simpl in Ho.
    apply andb_true_iff in Ho; destruct Ho as [Hy _].
    intros Ex; inversion Ex; subst; assumption.
Qed.

Lemma py_iter_validb v xs x :
  py_iter h v = Ok xs -> In x xs -> validb (length h) x = true.
Proof.
  destruct v as [| | | | s |l]; simpl; try discriminate.
  - intros Ex; inversion Ex; subst; rewrite in_map_iff.
    intros [c [<- _]]; reflexivity.
  - destruct (nth_error h l) as [[ys|kvs]|] eqn:E; try discriminate;
      intros Ex; inversion Ex; subst.
    + pose proof (@wf_heap_obj _ _ _ Hwf E) as Ho; simpl in Ho.
      rewrite forallb_forall in Ho; apply Ho.
    + rewrite in_map_iff; intros [kv [<- _]]; reflexivity.
Qed.

Lemma dict_items_validb v kvs kv :
  dict_items h v = Ok kvs -> In kv kvs -> validb (length h) (snd kv) = true.
Proof.
  destruct v as [| | | | |l]; simpl; try discriminate.
  destruct (nth_error h l) as [[ys|kvs']|] eqn:E; try discriminate.
  intros Ex; inversion Ex; subst.
  pose proof (@wf_heap_obj _ _ _ Hwf E) as Ho; simpl in Ho.
  rewrite forallb_forall in Ho; apply Ho.
Qed.

End Valid.

Lemma validb_app (h L : heap) (v : val) :
  validb (length h) v = true -> validb (length (h ++ L)) v = true.
Proof.
  destruct v; simpl; try reflexivity.
  rewrite !Nat.ltb_lt, length_app; lia.
Qed.

Create HintDb grown discriminated.

#[local] Hint Resolve dict_get_validb getitem_validb getitem0_validb
  py_iter_validb dict_items_validb is_dict_validb is_list_validb
  is_dict_lookup_validb is_list_In_validb nth_error_validb validb_app : grown.

(** Brings one read of the grown heap back to the heap it grew from. *)
Ltac grown_read :=
  match goal with
  | |- context [dict_get (?h ++ ?L) ?v ?k ?d] =>
      rewrite (@dict_get_grown h L v k d) by eauto 8 with grown
  | |- context [get_method (?h ++ ?L) ?v] =>
      rewrite (@get_method_grown h L v) by eauto 8 with grown
  | |- context [getitem (?h ++ ?L) ?v ?k] =>
      rewrite (@getitem_grown h L v k) by eauto 8 with grown
  | |- context [getitem0 (?h ++ ?L) ?v] =>
      rewrite (@getitem0_grown h L v) by eauto 8 with grown
  | |- context [py_in (?h ++ ?L) ?k ?v] =>
      rewrite (@py_in_grown h L k v) by eauto 8 with grown
  | |- context [py_len (?h ++ ?L) ?v] =>
      rewrite (@py_len_grown h L v) by eauto 8 with grown
  | |- context [py_bool (?h ++ ?L) ?v] =>
      rewrite (@py_bool_grown h L v) by eauto 8 with grown
  | |- context [py_iter (?h ++ ?L) ?v] =>
      rewrite (@py_iter_grown h L v) by eauto 8 with grown
  | |- context [dict_items (?h ++ ?L) ?v] =>
      rewrite (@dict_items_grown h L v) by eauto 8 with grown
  | |- context [str_join (?h ++ ?L) ?sep ?v] =>
      rewrite (@str_join_grown h L sep v) by eauto 8 with grown
  | |- context [py_str (?h ++ ?L) ?v] =>
      rewrite (@py_str_grown h L) by eauto 8 with grown
  end.

(** Splits on the result of the next read. *)
Ltac case_read :=
  match goal with
  | |- context [rbind ?m _] =>
      lazymatch m with
      | rbind _ _ => fail
      | Ok _ => fail
      | Raise _ => fail
      | if _ then _ else _ => fail
      | _ => destruct m eqn:?; cbn [rbind fst snd]
      end
  end.

Ltac grown_steps :=
  cbn [rbind fst snd];
  repeat first
    [ reflexivity
    | grown_read
    | case_read
    | match goal with
      | |- context [if ?b then _ else _] => destruct b eqn:?; cbn [rbind fst snd]
      end ].

Lemma extract_temperature_entry_grown (h L : heap) (temp : val) :
  wf_heap h = true -> validb (length h) temp = true ->
  extract_temperature_entry (h ++ L) temp = extract_temperature_entry h temp.
Proof. intros Hwf Hv; unfold extract_temperature_entry; grown_steps. Qed.

Lemma extract_rainfall_entry_grown (h L : heap) (rain : val) :
  wf_heap h = true -> validb (length h) rain = true ->
  extract_rainfall_entry (h ++ L) rain = extract_rainfall_entry h rain.
Proof. intros Hwf Hv; unfold extract_rainfall_entry; grown_steps. Qed.

Lemma format_warnings_summary_entry_grown (h L : heap) (item : pystr * val) :
  wf_heap h = true -> validb (length h) (snd item) = true ->
  format_warnings_summary_entry (h ++ L) item
  = format_warnings_summary_entry h item.
Proof.
  intros Hwf Hv; destruct item as [code info]; simpl in Hv.
  unfold format_warnings_summary_entry; grown_steps.
Qed.

Lemma extract_humidity_reading_grown (h L : heap) (data : val) :
  wf_heap h = true -> validb (length h) data = true ->
  extract_humidity_reading (h ++ L) data = extract_humidity_reading h data.
Proof. intros Hwf Hv; unfold extract_humidity_reading; grown_steps. Qed.

Lemma extract_uv_reading_grown (h L : heap) (uvinfo : val) :
  wf_heap h = true -> validb (length h) uvinfo = true ->
  extract_uv_reading (h ++ L) uvinfo = extract_uv_reading h uvinfo.
Proof. intros Hwf Hv; unfold extract_uv_reading; grown_steps. Qed.

Lemma flw_field_grown (h L : heap) (data : val) (key dflt : pystr) :
  wf_heap h = true -> validb (length h) data = true ->
  flw_field (h ++ L) data key dflt = flw_field h data key dflt.
Proof. intros Hwf Hv; unfold flw_field; grown_steps. Qed.

Lemma formatting_fnd_day_grown (h L : heap) (day : val) :
  wf_heap h = true -> validb (length h) day = true ->
  formatting_fnd_day (h ++ L) day = formatting_fnd_day h day.
Proof. intros Hwf Hv; unfold formatting_fnd_day; grown_steps. Qed.

Lemma formatting_swt_tip_grown (h L : heap) (tips : val) :
  wf_heap h = true -> validb (length h) tips = true ->
  formatting_swt_tip (h ++ L) tips = formatting_swt_tip h tips.
Proof. intros Hwf Hv; unfold formatting_swt_tip; grown_steps. Qed.

Lemma extract_uv_index_grown (h L : heap) (data : val) :
  wf_heap h = true -> validb (length h) data = true ->
  fst (extract_uv_index data (h ++ L)) = fst (extract_uv_index data h).
Proof.
  intros Hwf Hv; unfold extract_uv_index, rd; simpl.
  grown_read. case_read; [|reflexivity].
  grown_read. case_read; [|reflexivity].
  destruct (Nat.ltb _ 1); [reflexivity|].
  apply extract_uv_reading_grown; eauto with grown.
Qed.

Lemma formatting_flw_grown (h L : heap) (data : val) :
  wf_heap h = true -> validb (length h) data = true ->
  formatting_flw (h ++ L) data = formatting_flw h data.
Proof.
  intros Hwf Hv; unfold formatting_flw.
  repeat rewrite (@flw_field_grown h L) by assumption; reflexivity.
Qed.

Lemma formatting_fnd_grown (h L : heap) (data : val) :
  wf_heap h = true -> validb (length h) data = true ->
  formatting_fnd (h ++ L) data = formatting_fnd h data.
Proof.
  intros Hwf Hv; unfold formatting_fnd.
  grown_read. case_read; [|reflexivity].
  grown_read. case_read; [|reflexivity].
  rewrite (map_result_ext (formatting_fnd_day (h ++ L)) (formatting_fnd_day h));
    [reflexivity|].
  intros x Hx; apply formatting_fnd_day_grown; eauto with grown.
Qed.

Lemma formatting_swt_grown (h L : heap) (data : val) :
  wf_heap h = true -> validb (length h) data = true ->
  formatting_swt (h ++ L) data = formatting_swt h data.
Proof.
  intros Hwf Hv; unfold formatting_swt.
  grown_read. case_read; [|reflexivity].
  grown_read. case_read; [|reflexivity].
  rewrite (map_result_ext (formatting_swt_tip (h ++ L)) (formatting_swt_tip h));
    [reflexivity|].
  intros x Hx; apply formatting_swt_tip_grown; eauto with grown.
Qed.

(** ** Loops that append to a local list *)

Lemma nth_error_middle (h1 h2 : heap) (o : obj) :
  nth_error (h1 ++ o :: h2) (length h1) = Some o.
Proof.
  rewrite nth_error_app2 by apply Nat.le_refl.
  rewrite Nat.sub_diag; reflexivity.
Qed.

Lemma update_middle (h1 h2 : heap) (o o' : obj) :
  update (length h1) o' (h1 ++ o :: h2) = h1 ++ o' :: h2.
Proof.
  induction h1 as [|x h1 IH]; simpl; [reflexivity|].
  rewrite IH; reflexivity.
Qed.

Lemma list_append_middle (h1 h2 : heap) (acc : list val) (x : val) :
  list_append (VRef (length h1)) x (h1 ++ OList acc :: h2)
  = (Ok tt, h1 ++ OList (acc ++ [x]) :: h2).
Proof.
  unfold list_append; rewrite nth_error_middle, update_middle; reflexivity.
Qed.

Lemma str_join_middle (h1 h2 : heap) (sep : pystr) (lines : list pystr) :
  str_join (h1 ++ OList (map VStr lines) :: h2) sep (VRef (length h1))
  = Ok (join sep lines).
Proof.
  unfold str_join, py_iter; rewrite nth_error_middle; simpl.
  rewrite all_str_map_VStr; reflexivity.
Qed.

(** When what the body reads does not depend on the local list, the loop
    appends the lines in order, up to the first that fails. *)
Lemma for_each_append {X} (r : X -> heap -> result pystr)
  (r0 : X -> result pystr) (h1 h2 : heap) (xs : list X) : forall acc,
  (forall x acc', In x xs -> r x (h1 ++ OList acc' :: h2) = r0 x) ->
  exists acc',
    for_each xs
      (fun x => line <~ rd (r x) ;;
                list_append (VRef (length h1)) (VStr line))
      (h1 ++ OList acc :: h2)
    = (lines <- map_result r0 xs ;; Ok tt, h1 ++ OList acc' :: h2)
    /\ forall lines, map_result r0 xs = Ok lines ->
                     acc' = acc ++ map VStr lines.
Proof.
  induction xs as [|x xs IH]; intros acc Hr; simpl.
  - exists acc; split; [reflexivity|].
    intros lines E; inversion E; simpl; rewrite app_nil_r; reflexivity.
  - unfold bind at 1; unfold bind at 1; unfold rd at 1.
    rewrite (Hr x acc) by (left; reflexivity).
    destruct (r0 x) as [line|e]; cbv beta iota.
    + rewrite list_append_middle.
      destruct (IH (acc ++ [VStr line])) as [acc' [E Hacc]].
      { intros y acc'' Hy; apply Hr; right; assumption. }
      exists acc'; split.
      * rewrite E; destruct (map_result r0 xs); reflexivity.
      * intros lines El.
        destruct (map_result r0 xs) as [ls|]; simpl in El; [|discriminate].
        inversion El; subst; simpl.
        rewrite (Hacc ls eq_refl), <- app_assoc; reflexivity.
    + exists acc; split; [reflexivity | discriminate].
Qed.

(** ** The heap only grows *)

Lemma grows_ret {A} (a : A) : grows (ret a).
Proof. intros h; exists []; rewrite app_nil_r; reflexivity. Qed.

Lemma grows_raise {A} (e : exn) : grows (@raise A e).
Proof. intros h; exists []; rewrite app_nil_r; reflexivity. Qed.

Lemma grows_rd {A} (f : heap -> result A) : grows (rd f).
Proof. intros h; exists []; rewrite app_nil_r; reflexivity. Qed.

Lemma grows_new_dict (kvs : list (pystr * val)) : grows (new_dict kvs).
Proof. intros h; eexists; reflexivity. Qed.

Lemma grows_bind {A B} (m : H A) (k : A -> H B) :
  grows m -> (forall a, grows (k a)) -> grows (bind m k).
Proof.
  intros Hm Hk h; unfold bind.
  destruct (Hm h) as [L1 E1].
  destruct (m h) as [[a|e] h1]; simpl in E1; subst h1.
  - destruct (Hk a (h ++ L1)) as [L2 E2].
    exists (L1 ++ L2); rewrite E2, app_assoc; reflexivity.
  - exists L1; reflexivity.
Qed.

Lemma grows_if {A} (b : bool) (m1 m2 : H A) :
  grows m1 -> grows m2 -> grows (if b then m1 else m2).
Proof. destruct b; auto. Qed.

Lemma grows_at_ret {A} (a : loc) (x : A) : grows_at a (ret x).
Proof.
  intros h1 acc h2 _; exists acc, []; rewrite app_nil_r; reflexivity.
Qed.

Lemma grows_at_raise {A} (a : loc) (e : exn) : grows_at a (@raise A e).
Proof.
  intros h1 acc h2 _; exists acc, []; rewrite app_nil_r; reflexivity.
Qed.

Lemma grows_at_rd {A} (a : loc) (f : heap -> result A) : grows_at a (rd f).
Proof.
  intros h1 acc h2 _; exists acc, []; rewrite app_nil_r; reflexivity.
Qed.

Lemma grows_at_new_dict (a : loc) (kvs : list (pystr * val)) :
  grows_at a (new_dict kvs).
Proof.
  intros h1 acc h2 _; exists acc, [ODict kvs]; simpl.
  rewrite <- app_assoc; reflexivity.
Qed.

Lemma grows_at_list_append (a : loc) (x : val) :
  grows_at a (list_append (VRef a) x).
Proof.
  intros h1 acc h2 <-; exists (acc ++ [x]), [].
  rewrite list_append_middle, app_nil_r; reflexivity.
Qed.

Lemma grows_at_bind {A B} (a : loc) (m : H A) (k : A -> H B) :
  grows_at a m -> (forall x, grows_at a (k x)) -> grows_at a (bind m k).
Proof.
  intros Hm Hk h1 acc h2 Ha; unfold bind.
  destruct (Hm h1 acc h2 Ha) as [acc1 [L1 E1]].
  destruct (m (h1 ++ OList acc :: h2)) as [[x|e] h']; simpl in E1; subst h'.
  - destruct (Hk x h1 acc1 (h2 ++ L1) Ha) as [acc2 [L2 E2]].
    exists acc2, (L1 ++ L2); rewrite E2, app_assoc; reflexivity.
  - exists acc1, L1; reflexivity.
Qed.

Lemma grows_at_if {A} (a : loc) (b : bool) (m1 m2 : H A) :
  grows_at a m1 -> grows_at a m2 -> grows_at a (if b then m1 else m2).
Proof. destruct b; auto. Qed.

Lemma grows_at_for_each {X} (a : loc) (xs : list X) (body : X -> H unit) :
  (forall x, grows_at a (body x)) -> grows_at a (for_each xs body).
Proof.
  intros Hb; induction xs as [|x xs IH]; simpl.
  - apply grows_at_ret.
  - apply grows_at_bind; [apply Hb | intros _; apply IH].
Qed.

(** A new list is the one that what follows may write to. *)
Lemma grows_new_list {A} (xs : list val) (k : val -> H A) :
  (forall a, grows_at a (k (VRef a))) -> grows (bind (new_list xs) k).
Proof.
  intros Hk h; unfold bind, new_list.
  destruct (Hk (length h) h xs [] eq_refl) as [acc' [L E]].
  exists (OList acc' :: L); exact E.
Qed.

Create HintDb grows.

#[local] Hint Resolve grows_ret grows_raise grows_rd grows_new_dict grows_bind
  grows_if grows_at_ret grows_at_raise grows_at_rd grows_at_new_dict
  grows_at_list_append grows_at_bind grows_at_if grows_at_for_each
  grows_new_list : grows.

Lemma extract_temperature_data_grows (data : val) :
  grows (extract_temperature_data data).
Proof. unfold extract_temperature_data; auto 20 with grows. Qed.

Lemma extract_rainfall_data_grows (data : val) :
  grows (extract_rainfall_data data).
Proof. unfold extract_rainfall_data; auto 20 with grows. Qed.

Lemma extract_humidity_data_grows (data : val) :
  grows (extract_humidity_data data).
Proof. unfold extract_humidity_data; auto 20 with grows. Qed.

Lemma extract_uv_index_grows (data : val) : grows (extract_uv_index data).
Proof. unfold extract_uv_index; auto with grows. Qed.

Lemma format_warnings_grows (data : val) : grows (format_warnings data).
Proof. unfold format_warnings; auto 20 with grows. Qed.

Lemma format_warnings_summary_grows (data : val) :
  grows (format_warnings_summary data).
Proof. unfold format_warnings_summary; auto 20 with grows. Qed.

Lemma current_weather_process_grows (data : val) :
  grows (current_weather_process data).
Proof.
  unfold current_weather_process.
  auto 20 using extract_temperature_data_grows, extract_rainfall_data_grows,
    extract_humidity_data_grows, extract_uv_index_grows with grows.
Qed.

Lemma formatting_weather_grows (data : val) (dataType : pystr) :
  grows (formatting_weather data dataType).
Proof.
  unfold formatting_weather, some_str.
  repeat apply grows_if;
    auto 20 using current_weather_process_grows, format_warnings_grows,
      format_warnings_summary_grows with grows.
Qed.


(** ** What the renderers return *)

Ltac read_step := repeat grown_read; case_read; [|reflexivity].

Lemma extract_temperature_data_fst (h L : heap) (data : val) :
  wf_heap h = true -> validb (length h) data = true ->
  fst (extract_temperature_data data (h ++ L))
  = extract_temperature_data_value h data.
Proof.
  intros Hwf Hv.
  unfold extract_temperature_data, extract_temperature_data_value.
  unfold bind, rd, ret, raise, new_list.
  read_step.
  destruct a; [|reflexivity].
  do 4 read_step.
  match goal with
  | |- context [for_each ?xs _ _] =>
      destruct (@for_each_append val
                  (fun temp h0 => extract_temperature_entry h0 temp)
                  (extract_temperature_entry h) (h ++ L) [] xs [])
        as [acc' [E Hacc]]
  end.
  { intros x acc'' Hx; rewrite <- app_assoc.
    apply extract_temperature_entry_grown; eauto with grown. }
  unfold bind, rd in E; rewrite E; clear E.
  case_read; [|reflexivity].
  rewrite (Hacc _ eq_refl); cbn [app].
  rewrite str_join_middle, <- app_assoc.
  repeat grown_read. case_read; reflexivity.
Qed.

Lemma extract_rainfall_data_fst (h L : heap) (data : val) :
  wf_heap h = true -> validb (length h) data = true ->
  fst (extract_rainfall_data data (h ++ L))
  = extract_rainfall_data_value h data.
Proof.
  intros Hwf Hv.
  unfold extract_rainfall_data, extract_rainfall_data_value.
  unfold bind, rd, ret, raise, new_list.
  read_step.
  destruct a; [|reflexivity].
  do 3 read_step.
  match goal with
  | |- context [for_each ?xs _ _] =>
      destruct (@for_each_append val
                  (fun rain h0 => extract_rainfall_entry h0 rain)
                  (extract_rainfall_entry h) (h ++ L) [] xs [])
        as [acc' [E Hacc]]
  end.
  { intros x acc'' Hx; rewrite <- app_assoc.
    apply extract_rainfall_entry_grown; eauto with grown. }
  unfold bind, rd in E; rewrite E; clear E.
  case_read; [|reflexivity].
  rewrite (Hacc _ eq_refl); cbn [app].
  rewrite str_join_middle; reflexivity.
Qed.

Lemma format_warnings_summary_fst (h L : heap) (data : val) :
  wf_heap h = true -> validb (length h) data = true ->
  fst (format_warnings_summary data (h ++ L))
  = format_warnings_summary_value h data.
Proof.
  intros Hwf Hv.
  unfold format_warnings_summary, format_warnings_summary_value.
  unfold bind, rd, ret, raise, new_list.
  read_step.
  destruct (Nat.eqb (length _) 0); [reflexivity|]; cbn [rbind fst snd].
  repeat grown_read.
  match goal with E : dict_items h data = Ok _ |- _ => rewrite E end.
  match goal with
  | |- context [for_each ?xs _ _] =>
      destruct (@for_each_append (pystr * val)
                  (fun item h0 => format_warnings_summary_entry h0 item)
                  (format_warnings_summary_entry h) (h ++ L) [] xs [])
        as [acc' [E Hacc]]
  end.
  { intros x acc'' Hx; rewrite <- app_assoc.
    apply format_warnings_summary_entry_grown; eauto with grown. }
  unfold bind, rd in E; rewrite E; clear E.
  case_read; [|reflexivity].
  rewrite (Hacc _ eq_refl); cbn [app].
  rewrite str_join_middle; reflexivity.
Qed.

Lemma dict_get_present (h : heap) (data : val) (k : pystr) (d d' : val) :
  py_in h k data = Ok true -> dict_get h data k d = dict_get h data k d'.
Proof.
  destruct data as [| | | | |l]; simpl; try reflexivity.
  destruct (nth_error h l) as [[xs|kvs]|]; try reflexivity.
  destruct (lookup k kvs); [reflexivity | discriminate].
Qed.

Lemma extract_humidity_data_fst (h L : heap) (data : val) :
  wf_heap h = true -> validb (length h) data = true ->
  fst (extract_humidity_data data (h ++ L))
  = extract_humidity_data_value h data.
Proof.
  intros Hwf Hv.
  unfold extract_humidity_data, extract_humidity_data_value.
  unfold bind, rd, ret, raise, new_dict.
  read_step.
  match goal with
  | |- context [negb ?b] => destruct b; cbn [negb rbind fst snd]
  end; [|reflexivity].
  read_step.
  repeat grown_read.
  rewrite (@dict_get_present h data (u "humidity") _ VNone) by assumption.
  do 3 read_step.
  match goal with
  | |- context [negb ?b] => destruct b; cbn [negb rbind fst snd]
  end; [|reflexivity].
  rewrite <- app_assoc; apply extract_humidity_reading_grown; assumption.
Qed.
Lemma getitem_key_table (h0 : heap) (acc : list val) (c : val) :
  getitem_key (h0 ++ OList acc :: [ODict warning_code_dict])
    (VRef (S (length h0))) c
  = lookup_key (h0 ++ OList acc :: [ODict warning_code_dict])
      warning_code_dict c.
Proof.
  unfold getitem_key.
  replace (S (length h0)) with (length (h0 ++ [OList acc]))
    by (rewrite length_app; simpl; lia).
  replace (h0 ++ OList acc :: [ODict warning_code_dict])
    with ((h0 ++ [OList acc]) ++ ODict warning_code_dict :: [])
    by (rewrite <- app_assoc; reflexivity).
  rewrite nth_error_middle; reflexivity.
Qed.

Lemma lookup_key_table_validb (h : heap) (n : nat) (c x : val) :
  lookup_key h warning_code_dict c = Ok x -> validb n x = true.
Proof.
  destruct c as [| | | | k |l]; unfold lookup_key; try discriminate.
  - destruct (lookup k warning_code_dict) eqn:E; [|discriminate].
    intros Ex; inversion Ex; subst.
    eapply lookup_validb; [|eassumption]; reflexivity.
  - destruct (nth_error h l); discriminate.
Qed.

#[local] Hint Resolve lookup_key_table_validb : grown.

(** One warning renders the same whatever the call has put on the heap. *)
Lemma format_warnings_entry_local (h L : heap) (acc : list val) (w : val) :
  wf_heap h = true -> validb (length h) w = true ->
  format_warnings_entry (VRef (S (length (h ++ L))))
    ((h ++ L) ++ OList acc :: [ODict warning_code_dict]) w
  = format_warnings_entry (format_warnings_table h) (format_warnings_heap h) w.
Proof.
  intros Hwf Hv.
  unfold format_warnings_entry, format_warnings_table, format_warnings_heap.
  rewrite getitem_grown by eauto with grown.
  rewrite (@getitem_grown h [OList []; ODict warning_code_dict]) by assumption.
  rewrite getitem_grown by assumption.
  case_read; [|reflexivity].
  rewrite getitem_key_table, (getitem_key_table h []).
  rewrite <- app_assoc.
  rewrite !lookup_key_grown by eauto with grown.
  grown_steps.
Qed.
Lemma format_warnings_fst (h L : heap) (data : val) :
  wf_heap h = true -> validb (length h) data = true ->
  fst (format_warnings data (h ++ L)) = format_warnings_value h data.
Proof.
  intros Hwf Hv.
  unfold format_warnings, format_warnings_value.
  unfold bind, rd, ret, raise, new_list, new_dict.
  do 2 read_step.
  destruct (negb _); [reflexivity|]; cbn [rbind fst snd].
  do 2 read_step.
  replace (length ((h ++ L) ++ [OList []])) with (S (length (h ++ L)))
    by (rewrite (length_app (h ++ L)); simpl; lia).
  rewrite <- (app_assoc (h ++ L) [OList []] [ODict warning_code_dict]).
  cbn [app].
  match goal with
  | |- context [for_each ?xs _ _] =>
      destruct (@for_each_append val
                  (fun w h0 =>
                     format_warnings_entry (VRef (S (length (h ++ L)))) h0 w)
                  (format_warnings_entry (format_warnings_table h)
                     (format_warnings_heap h))
                  (h ++ L) [ODict warning_code_dict] xs [])
        as [acc' [E Hacc]]
  end.
  { intros x acc'' Hx.
    apply format_warnings_entry_local; eauto with grown. }
  unfold bind, rd in E; rewrite E; clear E.
  case_read; [|reflexivity].
  rewrite (Hacc _ eq_refl); cbn [app].
  rewrite str_join_middle; reflexivity.
Qed.

Lemma current_weather_process_fst (h L : heap) (data : val) :
  wf_heap h = true -> validb (length h) data = true ->
  fst (current_weather_process data (h ++ L))
  = current_weather_process_value h data.
Proof.
  intros Hwf Hv.
  unfold current_weather_process, current_weather_process_value.
  unfold bind at 1.
  pose proof (@extract_temperature_data_fst h L data Hwf Hv) as Et.
  destruct (extract_temperature_data_grows data (h ++ L)) as [L1 E1].
  destruct (extract_temperature_data data (h ++ L)) as [rt h1].
  simpl in Et, E1; subst h1; rewrite <- Et.
  destruct rt as [t|e]; [|reflexivity]; cbn [rbind].
  unfold bind at 1; rewrite <- app_assoc.
  pose proof (@extract_rainfall_data_fst h (L ++ L1) data Hwf Hv) as Er.
  destruct (extract_rainfall_data_grows data (h ++ L ++ L1)) as [L2 E2].
  destruct (extract_rainfall_data data (h ++ L ++ L1)) as [rr h2].
  simpl in Er, E2; subst h2; rewrite <- Er.
  destruct rr as [r|e]; [|reflexivity]; cbn [rbind].
  unfold bind at 1; rewrite <- app_assoc.
  pose proof (@extract_humidity_data_fst h ((L ++ L1) ++ L2) data Hwf Hv) as Em.
  destruct (extract_humidity_data_grows data (h ++ (L ++ L1) ++ L2))
    as [L3 E3].
  destruct (extract_humidity_data data (h ++ (L ++ L1) ++ L2)) as [rm h3].
  simpl in Em, E3; subst h3; rewrite <- Em.
  destruct rm as [m|e]; [|reflexivity]; cbn [rbind].
  unfold bind at 1; rewrite <- app_assoc.
  pose proof (@extract_uv_index_grown h (((L ++ L1) ++ L2) ++ L3) data Hwf Hv)
    as Ev.
  destruct (extract_uv_index_grows data (h ++ ((L ++ L1) ++ L2) ++ L3))
    as [L4 E4].
  destruct (extract_uv_index data (h ++ ((L ++ L1) ++ L2) ++ L3)) as [rv h4].
  cbn [fst snd] in Ev, E4; subst h4; rewrite <- Ev.
  destruct rv as [v|e]; [|reflexivity]; cbn [rbind].
  unfold bind, new_list, rd; cbn [fst snd].
  match goal with
  | |- context [OList [VStr ?a; VStr ?b; VStr ?c; VStr ?d]] =>
      change [VStr a; VStr b; VStr c; VStr d] with (map VStr [a; b; c; d])
  end.
  rewrite str_join_middle; reflexivity.
Qed.

Lemma formatting_weather_fst (h L : heap) (data : val) (dataType : pystr) :
  wf_heap h = true -> validb (length h) data = true ->
  fst (formatting_weather data dataType (h ++ L))
  = formatting_weather_value h data dataType.
Proof.
  intros Hwf Hv.
  unfold formatting_weather, formatting_weather_value, some_str, some_result.
  repeat match goal with
         | |- context [if ?b then _ else _] => destruct b
         end;
    try reflexivity; unfold bind at 1.
  - unfold rd; rewrite formatting_flw_grown by assumption.
    destruct (formatting_flw h data); reflexivity.
  - unfold rd; rewrite formatting_fnd_grown by assumption.
    destruct (formatting_fnd h data); reflexivity.
  - rewrite <- (@current_weather_process_fst h L data Hwf Hv).
    destruct (current_weather_process data (h ++ L)) as [[s|e] h'];
      reflexivity.
  - rewrite <- (@format_warnings_summary_fst h L data Hwf Hv).
    destruct (format_warnings_summary data (h ++ L)) as [[s|e] h'];
      reflexivity.
  - rewrite <- (@format_warnings_fst h L data Hwf Hv).
    destruct (format_warnings data (h ++ L)) as [[s|e] h']; reflexivity.
  - unfold rd; rewrite formatting_swt_grown by assumption.
    destruct (formatting_swt h data); reflexivity.
Qed.

(** ** Parsing never raises *)

Lemma for_all_cons {A B} (f : A -> H B) (x : A) (xs : list A) :
  for_all f (x :: xs)
  = (v <~ f x ;; vs <~ for_all f xs ;; ret (v :: vs)).
Proof. reflexivity. Qed.

Lemma for_all_ok {A B} (f : A -> H B) (xs : list A) :
  Forall (fun x => forall h, exists v h', f x h = (Ok v, h')) xs ->
  forall h, exists vs h', for_all f xs h = (Ok vs, h').
Proof.
  induction 1 as [|x xs Hx _ IH]; intros h.
  - exists [], h; reflexivity.
  - rewrite for_all_cons; unfold bind.
    destruct (Hx h) as [v [h1 E1]]; rewrite E1.
    destruct (IH h1) as [vs [h2 E2]]; rewrite E2.
    exists (v :: vs), h2; reflexivity.
Qed.

Lemma load_ok (d : json) : forall h, exists v h', load d h = (Ok v, h').
Proof.
  induction d as [| b | z | f | s | xs IH | kvs IH] using json_induction;
    intros h; try (eexists; eexists; reflexivity).
  - simpl; unfold bind.
    destruct (for_all_ok load xs IH h) as [vs [h1 E]]; rewrite E.
    eexists; eexists; reflexivity.
  - simpl; unfold bind at 1.
    destruct (@for_all_ok _ _ (fun kv => v <~ load (snd kv) ;; ret (fst kv, v))
                kvs) with (h := h) as [es [h1 E]].
    { eapply Forall_impl; [|exact IH].
      intros kv Hkv h0; unfold bind.
      destruct (Hkv h0) as [v [h' Ev]]; rewrite Ev.
      eexists; eexists; reflexivity. }
    rewrite E; eexists; eexists; reflexivity.
Qed.

(** ** Parsing gives a well-formed heap *)

Lemma validb_le (n m : nat) (v : val) :
  n <= m -> validb n v = true -> validb m v = true.
Proof.
  intros Hnm; destruct v; simpl; try reflexivity.
  rewrite !Nat.ltb_lt; lia.
Qed.

Lemma obj_validb_le (n m : nat) (o : obj) :
  n <= m -> obj_validb n o = true -> obj_validb m o = true.
Proof.
  intros Hnm; destruct o as [xs|kvs]; simpl; rewrite !forallb_forall;
    intros Ho x Hx; eapply validb_le; eauto.
Qed.

Lemma wf_heap_snoc (h : heap) (o : obj) :
  wf_heap h = true -> obj_validb (length h) o = true ->
  wf_heap (h ++ [o]) = true.
Proof.
  unfold wf_heap; intros Hwf Ho.
  rewrite length_app, forallb_app; simpl.
  apply andb_true_iff; split.
  - rewrite forallb_forall in *; intros x Hx.
    eapply obj_validb_le; [|apply Hwf, Hx]; lia.
  - rewrite andb_true_r; eapply obj_validb_le; [|exact Ho]; lia.
Qed.

Lemma dict_set_validb (n : nat) (k : pystr) (v : val)
  (kvs : list (pystr * val)) :
  validb n v = true ->
  forallb (fun kv => validb n (snd kv)) kvs = true ->
  forallb (fun kv => validb n (snd kv)) (dict_set k v kvs) = true.
Proof.
  intros Hv; induction kvs as [|[k' v'] kvs IH]; simpl.
  - intros _; rewrite Hv; reflexivity.
  - rewrite andb_true_iff; intros [Hv' Hr].
    destruct (pystr_eqb k k'); simpl.
    + rewrite Hv, Hr; reflexivity.
    + rewrite Hv', (IH Hr); reflexivity.
Qed.

Lemma fold_dict_set_validb (n : nat) (es : list (pystr * val)) :
  forall acc,
  forallb (fun kv => validb n (snd kv)) es = true ->
  forallb (fun kv => validb n (snd kv)) acc = true ->
  forallb (fun kv => validb n (snd kv))
    (fold_left (fun acc kv => dict_set (fst kv) (snd kv) acc) es acc) = true.
Proof.
  induction es as [|[k v] es IH]; intros acc; simpl; [auto|].
  rewrite andb_true_iff; intros [Hv Hr] Hacc.
  apply IH; [assumption | apply dict_set_validb; assumption].
Qed.

Lemma for_all_parses_well {A B} (valid : nat -> B -> bool) (f : A -> H B)
  (xs : list A) :
  (forall n m b, n <= m -> valid n b = true -> valid m b = true) ->
  Forall (fun x => parses_well valid (f x)) xs ->
  parses_well (fun n => forallb (valid n)) (for_all f xs).
Proof.
  intros Hmono; induction 1 as [|x xs Hx _ IH]; intros h vs h' Hwf.
  - intros E; inversion E; subst; auto.
  - rewrite for_all_cons; unfold bind.
    destruct (f x h) as [[v|e] h1] eqn:E1; [|discriminate].
    destruct (Hx h v h1 Hwf E1) as (Hwf1 & Hv & Hle1).
    destruct (for_all f xs h1) as [[ws|e] h2] eqn:E2; [|discriminate].
    destruct (IH h1 ws h2 Hwf1 E2) as (Hwf2 & Hws & Hle2).
    unfold ret; intros E; inversion E; subst; simpl.
    repeat split; [assumption | | lia].
    rewrite Hws, andb_true_r; eapply Hmono; eassumption.
Qed.

Lemma load_parses_well (d : json) : parses_well validb (load d).
Proof.
  induction d as [| b | z | f | s | xs IH | kvs IH] using json_induction;
    intros h v h' Hwf; cbn [load];
    try solve [unfold ret; intros E; inversion E; subst; auto].
  - unfold bind, new_list.
    destruct (for_all load xs h) as [[vs|e] h1] eqn:E1; [|discriminate].
    destruct (for_all_parses_well validb load xs validb_le IH h vs h1 Hwf E1)
      as (Hwf1 & Hvs & Hle).
    intros E; inversion E; subst.
    rewrite length_app; simpl; repeat split.
    + apply wf_heap_snoc; assumption.
    + apply Nat.ltb_lt; lia.
    + lia.
  - unfold bind at 1.
    destruct (for_all (fun kv => v <~ load (snd kv) ;; ret (fst kv, v)) kvs h)
      as [[es|e] h1] eqn:E1; [|discriminate].
    destruct (for_all_parses_well (fun n kv => validb n (snd kv))
                (fun kv => v <~ load (snd kv) ;; ret (fst kv, v)) kvs)
      with (h := h) (a := es) (h' := h1) as (Hwf1 & Hes & Hle);
      try assumption.
    { intros n m kv; apply validb_le. }
    { eapply Forall_impl; [|exact IH].
      intros kv Hkv h0 p h0' Hwf0; unfold bind, ret.
      destruct (load (snd kv) h0) as [[x|e] h2] eqn:E2; [|discriminate].
      intros E; inversion E; subst; simpl.
      exact (Hkv h0 x h0' Hwf0 E2). }
    unfold new_dict; intros E; inversion E; subst.
    rewrite length_app; simpl; repeat split.
    + apply wf_heap_snoc; [assumption|]; simpl.
      apply fold_dict_set_validb; [assumption | reflexivity].
    + apply Nat.ltb_lt; lia.
    + lia.
Qed.

(** A document parsed into the empty heap: the heap is well formed and the
    value of the document is valid in it. *)
Lemma heap_of_wf (d : json) (data : val) :
  fst (load d []) = Ok data ->
  wf_heap (heap_of d) = true /\ validb (length (heap_of d)) data = true.
Proof.
  unfold heap_of; intros E.
  destruct (load d []) as [r h'] eqn:El; simpl in E; subst r.
  destruct (load_parses_well d [] data h' eq_refl El) as (Hwf & Hv & _).
  split; assumption.
Qed.
(** ** The entry tool and the fetcher *)

(** C1.  For every [dataType] and [lang] of which the first is not one of the
    six report tags or the second is not one of the three language codes,
    [get_weather] returns the text [Invalid dataType or lang. Use dataType
    in {...} and {...}], the same whatever the two inputs are: the first
    pair of braces holds the six tags and the second the three language
    codes, each in quotes and separated by a comma and a space, in the order
    in which the [set] iterates.  It leaves the world as it was: no request
    is sent (the fetcher is not called), nothing is printed and no object is
    made.  The interpreter is taken to iterate a [set] over its elements,
    each once, and to give a word of the two sets in quotes as its [repr]. *)
Theorem get_weather_invalid_input (dataType lang : pystr) (w : world) :
  Permutation dataType_set_order dataType_set ->
  Permutation lang_set_order lang_set ->
  (forall t, In t dataType_set \/ In t lang_set -> str_repr t = quoted t) ->
  ~ In dataType dataType_set \/ ~ In lang lang_set ->
  get_weather dataType lang w
  = (Ok (Some (u "Invalid dataType or lang. Use dataType in "
               ++ (u "{" ++ join (u ", ") (map quoted dataType_set_order)
                     ++ u "}")
               ++ u " and "
               ++ (u "{" ++ join (u ", ") (map quoted lang_set_order)
                     ++ u "}"))), w)
  /\ requests (snd (get_weather dataType lang w)) = requests w.
Proof.
  intros Hp1 Hp2 Hrepr Hbad.
  assert (E : negb (set_mem dataType dataType_set)
              || negb (set_mem lang lang_set) = true).
  { apply orb_true_iff.
    destruct Hbad as [Hd|Hl]; [left|right]; apply negb_true_iff;
      apply not_true_is_false; rewrite set_mem_In; assumption. }
  assert (E1 : map str_repr dataType_set_order = map quoted dataType_set_order).
  { apply map_ext_in; intros t Ht; apply Hrepr; left.
    exact (Permutation_in t Hp1 Ht). }
  assert (E2 : map str_repr lang_set_order = map quoted lang_set_order).
  { apply map_ext_in; intros t Ht; apply Hrepr; right.
    exact (Permutation_in t Hp2 Ht). }
  unfold get_weather; rewrite E.
  unfold invalid_input_message, set_str; rewrite E1, E2.
  split; reflexivity.
Qed.

(** C2.  What [make_hko_weather_request] turns into [None], and what it
    lets through.  When [client.get] comes back with a response or raises an
    [Exception], the call returns.  A response with a status outside
    200..299 gives [None]; an [Exception] of [client.get] (a transport
    failure, or any other) gives [None]; a body that is no JSON text gives
    [None]; a response with a status in 200..299 and a JSON body gives the
    parsed document, which the call leaves on the heap, and prints nothing.
    An exception that is no [Exception] (the [CancelledError] of a task
    cancelled while it waits for the response) is caught by no clause and
    reaches the caller. *)
Theorem make_hko_weather_request_except_Exception (url : pystr) (w : world) :
  ((forall e, upstream (requests w) url = Failure e -> is_Exception e = true) ->
   exists v w', make_hko_weather_request url w = (Ok v, w'))
  /\ (forall status body,
        upstream (requests w) url = Response status body ->
        (status < 200 \/ 299 < status)%Z ->
        make_hko_weather_request url w
        = (Ok VNone,
           World (objects w) (requests w ++ [url])
             (stdout w ++ [LogHTTPError status])))
  /\ (forall e,
        upstream (requests w) url = Failure e ->
        is_Exception e = true ->
        fst (make_hko_weather_request url w) = Ok VNone
        /\ objects (snd (make_hko_weather_request url w)) = objects w)
  /\ (forall status,
        upstream (requests w) url = Response status None ->
        (200 <= status <= 299)%Z ->
        make_hko_weather_request url w
        = (Ok VNone,
           World (objects w) (requests w ++ [url])
             (stdout w ++ [LogUnexpectedError ValueError])))
  /\ (forall status d,
        upstream (requests w) url = Response status (Some d) ->
        (200 <= status <= 299)%Z ->
        exists v h',
          load d (objects w) = (Ok v, h')
          /\ make_hko_weather_request url w
             = (Ok v, World h' (requests w ++ [url]) (stdout w)))
  /\ (forall e,
        upstream (requests w) url = Failure e ->
        is_Exception e = false ->
        make_hko_weather_request url w
        = (Raise e, World (objects w) (requests w ++ [url]) (stdout w))).
Proof.
  unfold make_hko_weather_request, try_except, wbind, client_get,
    raise_for_status, response_json, on_heap, wraise, wret, print.
  split; [|split; [|split; [|split; [|split]]]].
  - intros Hexc.
    destruct (upstream (requests w) url) as [status body|e]; cbn [fst snd].
    + destruct (Z.leb 200 status && Z.leb status 299).
      * destruct body as [d|]; cbn [objects].
        -- destruct (load_ok d (objects w)) as [v [h' E]]; rewrite E.
           eexists; eexists; reflexivity.
        -- eexists; eexists; reflexivity.
      * eexists; eexists; reflexivity.
    + specialize (Hexc e eq_refl).
      destruct e; try discriminate Hexc; eexists; eexists; reflexivity.
  - intros status body E Hs; rewrite E; cbn [fst snd].
    assert (Z.leb 200 status && Z.leb status 299 = false) as ->.
    { apply andb_false_iff; rewrite !Z.leb_gt; lia. }
    reflexivity.
  - intros e E He; rewrite E.
    destruct e; try discriminate He; split; reflexivity.
  - intros status E Hs; rewrite E; cbn [fst snd].
    assert (Z.leb 200 status && Z.leb status 299 = true) as ->.
    { apply andb_true_iff; rewrite !Z.leb_le; lia. }
    reflexivity.
  - intros status d E Hs; rewrite E; cbn [fst snd].
    assert (Z.leb 200 status && Z.leb status 299 = true) as ->.
    { apply andb_true_iff; rewrite !Z.leb_le; lia. }
    cbn [objects requests stdout].
    destruct (load_ok d (objects w)) as [v [h' Ev]]; rewrite Ev.
    exists v, h'; split; reflexivity.
  - intros e E He; rewrite E.
    destruct e; try discriminate He; reflexivity.
Qed.

(** ** Reading a dict or a list that is known *)

Lemma dict_get_is_dict h v kvs k d :
  is_dict h v kvs ->
  dict_get h v k d = Ok (match lookup k kvs with Some x => x | None => d end).
Proof. intros [l [-> E]]; simpl; rewrite E; reflexivity. Qed.

Lemma get_method_is_dict h v kvs : is_dict h v kvs -> get_method h v = Ok tt.
Proof. intros [l [-> E]]; simpl; rewrite E; reflexivity. Qed.

Lemma getitem_is_dict h v kvs k x :
  is_dict h v kvs -> lookup k kvs = Some x -> getitem h v k = Ok x.
Proof. intros [l [-> E]] Hk; simpl; rewrite E, Hk; reflexivity. Qed.

Lemma py_in_is_dict h v kvs k :
  is_dict h v kvs ->
  py_in h k v = Ok (match lookup k kvs with Some _ => true | None => false end).
Proof. intros [l [-> E]]; simpl; rewrite E; reflexivity. Qed.


Lemma py_len_is_dict h v kvs :
  is_dict h v kvs -> py_len h v = Ok (length kvs).
Proof. intros [l [-> E]]; simpl; rewrite E; reflexivity. Qed.

Lemma py_iter_is_list h v xs : is_list h v xs -> py_iter h v = Ok xs.
Proof. intros [l [-> E]]; simpl; rewrite E; reflexivity. Qed.

Lemma py_bool_is_list h v xs :
  is_list h v xs ->
  py_bool h v = Ok (match xs with [] => false | _ => true end).
Proof. intros [l [-> E]]; simpl; rewrite E; reflexivity. Qed.

Lemma getitem0_is_list h v x xs :
  is_list h v (x :: xs) -> getitem0 h v = Ok x.
Proof. intros [l [-> E]]; simpl; rewrite E; reflexivity. Qed.

Lemma getitem_ok_validb h v k x :
  getitem h v k = Ok x -> validb (length h) v = true.
Proof.
  destruct v as [| | | | |l]; simpl; try discriminate.
  destruct (nth_error h l) eqn:E; [|discriminate].
  intros _; apply Nat.ltb_lt, nth_error_Some; congruence.
Qed.

Lemma map_result_In_raise {A B} (f : A -> result B) (xs : list A) (x : A)
  (e : exn) :
  In x xs -> f x = Raise e -> exists e', map_result f xs = Raise e'.
Proof.
  induction xs as [|y xs IH]; intros Hx Ex; [destruct Hx|]; simpl.
  destruct (f y) eqn:Ey; simpl; [|eexists; reflexivity].
  destruct Hx as [->|Hx]; [congruence|].
  destruct (IH Hx Ex) as [e' ->]; eexists; reflexivity.
Qed.

Lemma map_result_first_raise {A B} (f : A -> result B) (pre post : list A)
  (x : A) (e : exn) :
  Forall (fun y => exists z, f y = Ok z) pre -> f x = Raise e ->
  map_result f (pre ++ x :: post) = Raise e.
Proof.
  induction 1 as [|y pre [z Ey] _ IH]; intros Ex; simpl.
  - rewrite Ex; reflexivity.
  - rewrite Ey, (IH Ex); reflexivity.
Qed.

(** ** The warning-detail renderer *)

(** A record whose code is not in [warning_code_dict] does not render. *)
Lemma format_warnings_entry_unknown (h : heap) (r c : val) :
  getitem h r (u "warningStatementCode") = Ok c -> known_code c = false ->
  exists e,
    format_warnings_entry (format_warnings_table h) (format_warnings_heap h) r
    = Raise e
    /\ (hashable c = true -> e = KeyError).
Proof.
  intros Ec Hc.
  unfold format_warnings_entry, format_warnings_table, format_warnings_heap.
  rewrite getitem_grown by (eapply getitem_ok_validb; eassumption).
  rewrite Ec; cbn [rbind].
  rewrite (getitem_key_table h []).
  destruct c as [| | | | k |l]; unfold lookup_key;
    try (exists KeyError; split; [reflexivity | reflexivity]).
  - unfold known_code in Hc.
    destruct (lookup k warning_code_dict); [discriminate|].
    exists KeyError; split; reflexivity.
  - destruct (nth_error _ l); eexists; (split; [reflexivity | discriminate]).
Qed.

(** C3.  On the document with the one [WRAIN] record the warning-detail
    renderer returns the line of the spec.  On every document whose
    [details] hold a record with a code outside the twelve of
    [warning_code_dict] the call fails, so that the record is not dropped;
    when the records before it render and the code is hashable, it fails
    with [KeyError], a lookup error. *)
Theorem format_warnings_unknown_code :
  on_document red_rain_document format_warnings
  = Ok (u "Rainstorm Warning Signal - t1: Red rain warning in force.")
  /\ (forall h data kvs details recs r c,
        wf_heap h = true ->
        is_dict h data kvs -> lookup (u "details") kvs = Some details ->
        is_list h details recs -> In r recs ->
        getitem h r (u "warningStatementCode") = Ok c ->
        known_code c = false ->
        exists e, fst (format_warnings data h) = Raise e)
  /\ (forall h data kvs details pre r post c,
        wf_heap h = true ->
        is_dict h data kvs -> lookup (u "details") kvs = Some details ->
        is_list h details (pre ++ r :: post) ->
        Forall (fun w => exists line,
                  format_warnings_entry (format_warnings_table h)
                    (format_warnings_heap h) w = Ok line) pre ->
        getitem h r (u "warningStatementCode") = Ok c ->
        known_code c = false -> hashable c = true ->
        fst (format_warnings data h) = Raise KeyError
        /\ is_LookupError KeyError = true).
Proof.
  split; [vm_compute; reflexivity|].
  assert (Hstart : forall h data kvs details recs,
            wf_heap h = true -> is_dict h data kvs ->
            lookup (u "details") kvs = Some details ->
            is_list h details recs -> recs <> [] ->
            fst (format_warnings data h)
            = (lines <- map_result
                 (format_warnings_entry (format_warnings_table h)
                    (format_warnings_heap h)) recs ;;
               Ok (join (nl ++ nl) lines))).
  { intros h data kvs details recs Hwf Hd Hk Hl Hne.
    rewrite <- (app_nil_r h) at 1.
    rewrite format_warnings_fst
      by (try assumption; eapply is_dict_validb; eassumption).
    unfold format_warnings_value.
    rewrite (dict_get_is_dict _ _ _ _ _ Hd), Hk; cbn [rbind].
    rewrite (py_bool_is_list _ _ _ Hl).
    destruct recs as [|r0 recs]; [congruence|]; cbn [rbind negb].
    rewrite (getitem_is_dict _ _ _ _ _ Hd Hk); cbn [rbind].
    rewrite (py_iter_is_list _ _ _ Hl); reflexivity. }
  split.
  - intros h data kvs details recs r c Hwf Hd Hk Hl Hr Ec Hc.
    rewrite (Hstart h data kvs details recs) by
      (try assumption; intros ->; destruct Hr).
    destruct (format_warnings_entry_unknown _ _ _ Ec Hc) as [e [Ee _]].
    destruct (map_result_In_raise _ _ _ _ Hr Ee) as [e' ->].
    exists e'; reflexivity.
  - intros h data kvs details pre r post c Hwf Hd Hk Hl Hpre Ec Hc Hh.
    rewrite (Hstart h data kvs details (pre ++ r :: post)) by
      (try assumption; destruct pre; discriminate).
    destruct (format_warnings_entry_unknown _ _ _ Ec Hc) as [e [Ee He]].
    rewrite (He Hh) in Ee.
    rewrite (map_result_first_raise _ _ _ _ _ Hpre Ee).
    split; reflexivity.
Qed.
Lemma Forall2_map_result {A B} (f : A -> result B) (xs : list A) (ys : list B) :
  Forall2 (fun x y => f x = Ok y) xs ys -> map_result f xs = Ok ys.
Proof.
  induction 1 as [|x y xs ys Exy _ IH]; simpl; [reflexivity|].
  rewrite Exy, IH; reflexivity.
Qed.

(** ** The multi-day forecast renderer *)



(** C4.  On the document with the one Monday record the [fnd] branch of
    [formatting_weather] returns the line with twelve spaces between the
    maximum temperature and the unit: the backslash-newline inside the
    f-string keeps the indentation of the next source line.  It is not the
    line of the spec, which has the unit right after the maximum. *)
Theorem formatting_weather_fnd_monday :
  on_document monday_document (fun data => formatting_weather data (u "fnd"))
  = Ok (Some (u "Monday (20240101): Sunny, 15-22            C"))
  /\ on_document monday_document
       (fun data => formatting_weather data (u "fnd"))
     <> Ok (Some (u "Monday (20240101): Sunny, 15-22C")).
Proof.
  split; [vm_compute; reflexivity | vm_compute; discriminate].
Qed.

(** ** The UV index *)

Lemma extract_uv_index_absent (h : heap) (data : val)
  (kvs : list (pystr * val)) :
  is_dict h data kvs -> lookup (u "uvindex") kvs = None ->
  fst (extract_uv_index data h) = Raise TypeError.
Proof.
  intros Hd Hk; unfold extract_uv_index, rd; cbn [fst].
  rewrite (dict_get_is_dict _ _ _ _ _ Hd), Hk; reflexivity.
Qed.

Lemma extract_uv_index_empty (h : heap) (data : val)
  (kvs : list (pystr * val)) :
  is_dict h data kvs -> lookup (u "uvindex") kvs = Some (VStr []) ->
  fst (extract_uv_index data h) = Ok (u "No UV index").
Proof.
  intros Hd Hk; unfold extract_uv_index, rd; cbn [fst].
  rewrite (dict_get_is_dict _ _ _ _ _ Hd), Hk; reflexivity.
Qed.

(** X2.  For every document whose [uvindex] holds a [recordDesc] and a list
    [data] that is not empty, [extract_uv_index] returns the line of the
    first reading, a newline, and the record description behind eight
    spaces. *)
Lemma extract_uv_index_first_reading (h : heap) (data uvinfo readings r
  record_desc value desc place : val) (kvs ukvs rkvs : list (pystr * val))
  (rest : list val) (svalue sdesc splace srecord : pystr) :
  is_dict h data kvs -> lookup (u "uvindex") kvs = Some uvinfo ->
  is_dict h uvinfo ukvs ->
  lookup (u "data") ukvs = Some readings -> is_list h readings (r :: rest) ->
  lookup (u "recordDesc") ukvs = Some record_desc ->
  is_dict h r rkvs ->
  lookup (u "value") rkvs = Some value -> lookup (u "desc") rkvs = Some desc ->
  lookup (u "place") rkvs = Some place ->
  py_str h value = Ok svalue -> py_str h desc = Ok sdesc ->
  py_str h place = Ok splace -> py_str h record_desc = Ok srecord ->
  fst (extract_uv_index data h)
  = Ok (u "UV Index: " ++ svalue ++ u " (" ++ sdesc ++ u ") at " ++ splace
          ++ u " " ++ nl ++ indent8 ++ u "Record description: " ++ srecord).
Proof.
  intros Hd Hk Hu Hdata Hl Hrd Hr Hv Hde Hp Ev Ede Ep Erd.
  unfold extract_uv_index, rd; cbn [fst].
  rewrite (dict_get_is_dict _ _ _ _ _ Hd), Hk; cbn [rbind].
  rewrite (py_len_is_dict _ _ _ Hu); cbn [rbind].
  destruct ukvs as [|kv ukvs']; [discriminate|]; cbn [length Nat.ltb Nat.leb].
  unfold extract_uv_reading.
  rewrite (getitem_is_dict _ _ _ _ _ Hu Hdata); cbn [rbind].
  rewrite (getitem0_is_list _ _ _ _ Hl); cbn [rbind].
  rewrite (getitem_is_dict _ _ _ _ _ Hu Hrd); cbn [rbind].
  rewrite (getitem_is_dict _ _ _ _ _ Hr Hv); cbn [rbind]; rewrite Ev; cbn [rbind].
  rewrite (getitem_is_dict _ _ _ _ _ Hr Hde); cbn [rbind]; rewrite Ede; cbn [rbind].
  rewrite (getitem_is_dict _ _ _ _ _ Hr Hp); cbn [rbind]; rewrite Ep; cbn [rbind].
  rewrite Erd; reflexivity.
Qed.

(** C5.  On the document without a [uvindex] key [extract_uv_index] raises
    [TypeError]: the default of [data.get] is the string [No uv index], whose
    length is not below 1, so the string is subscripted with [data]. *)
Theorem extract_uv_index_no_uvindex :
  on_document no_uvindex_document extract_uv_index = Raise TypeError
  /\ on_document no_uvindex_document extract_uv_index
     <> Ok (u "No UV index").
Proof.
  split; [vm_compute; reflexivity | vm_compute; discriminate].
Qed.
(** ** The temperature readings *)

Lemma extract_temperature_entry_segment (h : heap) (t : val) (line : pystr) :
  temperature_segment h t line -> extract_temperature_entry h t = Ok line.
Proof.
  intros (kvs & place & value & unit & sp & sv & su & Hd & Hp & Hv & Hu
          & Ep & Ev & Eu & ->).
  unfold extract_temperature_entry.
  rewrite (getitem_is_dict _ _ _ _ _ Hd Hp); cbn [rbind]; rewrite Ep; cbn [rbind].
  rewrite (getitem_is_dict _ _ _ _ _ Hd Hv); cbn [rbind]; rewrite Ev; cbn [rbind].
  rewrite (getitem_is_dict _ _ _ _ _ Hd Hu); cbn [rbind]; rewrite Eu; reflexivity.
Qed.

(** C6, as amended.  For every well-formed heap and every document with a
    [temperature] entry that holds a [recordTime] and the readings [data],
    [extract_temperature_data] returns the header with the record time,
    followed at once by the segments [place: value°unit] of the readings in
    their order, with a newline between one segment and the next. *)
Theorem extract_temperature_data_segments (h : heap)
  (data temp readings record_time : val) (kvs tkvs : list (pystr * val))
  (ts : list val) (stime : pystr) (lines : list pystr) :
  wf_heap h = true ->
  is_dict h data kvs -> lookup (u "temperature") kvs = Some temp ->
  is_dict h temp tkvs ->
  lookup (u "data") tkvs = Some readings -> is_list h readings ts ->
  lookup (u "recordTime") tkvs = Some record_time ->
  py_str h record_time = Ok stime ->
  Forall2 (temperature_segment h) ts lines ->
  fst (extract_temperature_data data h)
  = Ok ((u "Temperature readings (recorded at " ++ stime ++ u "):")
          ++ join nl lines).
Proof.
  intros Hwf Hd Hk Ht Hdata Hl Hrt Est Hlines.
  rewrite <- (app_nil_r h) at 1.
  rewrite extract_temperature_data_fst
    by (try assumption; eapply is_dict_validb; eassumption).
  unfold extract_temperature_data_value.
  rewrite (py_in_is_dict _ _ _ _ Hd), Hk; cbn [rbind].
  rewrite (getitem_is_dict _ _ _ _ _ Hd Hk); cbn [rbind].
  rewrite (getitem_is_dict _ _ _ _ _ Ht Hdata); cbn [rbind].
  rewrite (getitem_is_dict _ _ _ _ _ Ht Hrt); cbn [rbind].
  rewrite (py_iter_is_list _ _ _ Hl); cbn [rbind].
  rewrite (Forall2_map_result (extract_temperature_entry h) ts lines).
  - cbn [rbind]; rewrite Est; reflexivity.
  - eapply Forall2_impl; [|exact Hlines].
    intros t line; apply extract_temperature_entry_segment.
Qed.

(** ** The warning summary *)



(** ** The humidity *)

(** C8.  When the [data] of [humidity] is missing or empty (as in the
    document with an empty [data] and any [recordTime]),
    [extract_humidity_data] returns the same message, whatever the
    [recordTime]; when it is a list that is not empty the result is the line
    of its first reading. *)
Theorem extract_humidity_data_cases :
  (forall t,
     on_document (empty_humidity_document t) extract_humidity_data
     = Ok (u "Humidty data not available"))
  /\ (forall h data kvs,
        is_dict h data kvs ->
        (lookup (u "humidity") kvs = None
         \/ exists hum hkvs,
              lookup (u "humidity") kvs = Some hum /\ is_dict h hum hkvs
              /\ (lookup (u "data") hkvs = None
                  \/ exists readings,
                       lookup (u "data") hkvs = Some readings
                       /\ is_list h readings [])) ->
        fst (extract_humidity_data data h)
        = Ok (u "Humidty data not available"))
  /\ (forall h data kvs hum hkvs readings r rest rkvs record_time
             value unit place svalue sunit splace stime,
        wf_heap h = true ->
        is_dict h data kvs -> lookup (u "humidity") kvs = Some hum ->
        is_dict h hum hkvs ->
        lookup (u "data") hkvs = Some readings ->
        is_list h readings (r :: rest) ->
        lookup (u "recordTime") hkvs = Some record_time ->
        is_dict h r rkvs ->
        lookup (u "value") rkvs = Some value ->
        lookup (u "unit") rkvs = Some unit ->
        lookup (u "place") rkvs = Some place ->
        py_str h value = Ok svalue -> py_str h unit = Ok sunit ->
        py_str h place = Ok splace -> py_str h record_time = Ok stime ->
        fst (extract_humidity_data data h)
        = Ok (u "Humidity: " ++ svalue ++ u " " ++ sunit ++ u " at " ++ splace
                ++ u " Recorded at: " ++ stime)).
Proof.
  split; [|split].
  - intros t; vm_compute; reflexivity.
  - intros h data kvs Hd Hcase.
    pose proof (is_dict_validb _ _ _ Hd) as Hv.
    unfold extract_humidity_data, bind, rd, ret, new_dict; cbn [fst snd].
    rewrite (py_in_is_dict _ _ _ _ Hd).
    destruct Hcase as [Hk | (hum & hkvs & Hk & Hh & Hdata)]; rewrite Hk;
      cbn [negb fst snd]; [reflexivity|].
    rewrite (get_method_is_dict _ _ _ Hd); cbn [fst snd].
    rewrite dict_get_grown by assumption.
    rewrite (dict_get_is_dict _ _ _ _ _ Hd), Hk; cbn [fst snd].
    rewrite dict_get_grown by (eapply is_dict_validb; eassumption).
    rewrite (dict_get_is_dict _ _ _ _ _ Hh).
    destruct Hdata as [Hn | (readings & Hs & Hl)].
    + rewrite Hn; reflexivity.
    + rewrite Hs; cbn [fst snd].
      rewrite py_bool_grown by (eapply is_list_validb; eassumption).
      rewrite (py_bool_is_list _ _ _ Hl); reflexivity.
  - intros h data kvs hum hkvs readings r rest rkvs record_time value unit
      place svalue sunit splace stime Hwf Hd Hk Hh Hdata Hl Hrt Hr Hv Hu Hp
      Ev Eu Ep Et.
    rewrite <- (app_nil_r h) at 1.
    rewrite extract_humidity_data_fst
      by (try assumption; eapply is_dict_validb; eassumption).
    unfold extract_humidity_data_value.
    rewrite (py_in_is_dict _ _ _ _ Hd), Hk; cbn [rbind negb].
    rewrite (get_method_is_dict _ _ _ Hd); cbn [rbind].
    rewrite (dict_get_is_dict _ _ _ _ _ Hd), Hk; cbn [rbind].
    rewrite (dict_get_is_dict _ _ _ _ _ Hh), Hdata; cbn [rbind].
    rewrite (py_bool_is_list _ _ _ Hl); cbn [rbind negb].
    unfold extract_humidity_reading.
    rewrite (getitem_is_dict _ _ _ _ _ Hd Hk); cbn [rbind].
    rewrite (getitem_is_dict _ _ _ _ _ Hh Hdata); cbn [rbind].
    rewrite (getitem0_is_list _ _ _ _ Hl); cbn [rbind].
    rewrite (getitem_is_dict _ _ _ _ _ Hh Hrt); cbn [rbind].
    rewrite (getitem_is_dict _ _ _ _ _ Hr Hv); cbn [rbind]; rewrite Ev; cbn [rbind].
    rewrite (getitem_is_dict _ _ _ _ _ Hr Hu); cbn [rbind]; rewrite Eu; cbn [rbind].
    rewrite (getitem_is_dict _ _ _ _ _ Hr Hp); cbn [rbind]; rewrite Ep; cbn [rbind].
    rewrite Et; reflexivity.
Qed.
(** ** The formatter and the heap *)

Lemma grows_firstn {A} (m : H A) (h : heap) :
  grows m -> firstn (length h) (snd (m h)) = h.
Proof.
  intros Hm; destruct (Hm h) as [L ->].
  rewrite firstn_app, Nat.sub_diag, firstn_all; simpl.
  apply app_nil_r.
Qed.

(** C9.  In a well-formed heap, on a document of that heap, the result of
    [formatting_weather] is a function of the heap it is called in
    ([formatting_weather_value]), and a second call, made in the heap the
    first one leaves, returns what the first returned, a raised exception
    included: what a call leaves behind does not reach the next.  So it is
    for every parsed document and every tag. *)
Theorem formatting_weather_twice :
  (forall h weather_data dataType,
     wf_heap h = true -> validb (length h) weather_data = true ->
     fst (formatting_weather weather_data dataType
            (snd (formatting_weather weather_data dataType h)))
     = fst (formatting_weather weather_data dataType h)
     /\ fst (formatting_weather weather_data dataType h)
        = formatting_weather_value h weather_data dataType)
  /\ (forall d weather_data dataType,
        fst (load d []) = Ok weather_data ->
        fst (formatting_weather weather_data dataType
               (snd (formatting_weather weather_data dataType (heap_of d))))
        = fst (formatting_weather weather_data dataType (heap_of d))).
Proof.
  assert (Htwice : forall h weather_data dataType,
            wf_heap h = true -> validb (length h) weather_data = true ->
            fst (formatting_weather weather_data dataType
                   (snd (formatting_weather weather_data dataType h)))
            = fst (formatting_weather weather_data dataType h)
            /\ fst (formatting_weather weather_data dataType h)
               = formatting_weather_value h weather_data dataType).
  { intros h weather_data dataType Hwf Hv.
    destruct (formatting_weather_grows weather_data dataType h) as [L ->].
    rewrite formatting_weather_fst by assumption.
    rewrite <- (app_nil_r h) at 2 3.
    rewrite formatting_weather_fst by assumption.
    split; reflexivity. }
  split; [exact Htwice|].
  intros d weather_data dataType Ed.
  destruct (heap_of_wf d weather_data Ed) as [Hwf Hv].
  apply Htwice; assumption.
Qed.

(** C10.  [formatting_weather] and every renderer it calls leave each object
    of the heap they are called in as it was, whether they return or raise:
    the heap they leave starts with the heap they found.  What they write to
    is the lists and dicts they make themselves. *)
Theorem formatting_weather_reads_only (h : heap) (weather_data : val)
  (dataType : pystr) :
  firstn (length h) (snd (formatting_weather weather_data dataType h)) = h
  /\ firstn (length h) (snd (current_weather_process weather_data h)) = h
  /\ firstn (length h) (snd (extract_temperature_data weather_data h)) = h
  /\ firstn (length h) (snd (extract_rainfall_data weather_data h)) = h
  /\ firstn (length h) (snd (extract_humidity_data weather_data h)) = h
  /\ firstn (length h) (snd (extract_uv_index weather_data h)) = h
  /\ firstn (length h) (snd (format_warnings_summary weather_data h)) = h
  /\ firstn (length h) (snd (format_warnings weather_data h)) = h.
Proof.
  repeat split; apply grows_firstn.
  - apply formatting_weather_grows.
  - apply current_weather_process_grows.
  - apply extract_temperature_data_grows.
  - apply extract_rainfall_data_grows.
  - apply extract_humidity_data_grows.
  - apply extract_uv_index_grows.
  - apply format_warnings_summary_grows.
  - apply format_warnings_grows.
Qed.
(** ** The rainfall readings *)

Lemma join_nil_concat (parts : list pystr) : join [] parts = concat parts.
Proof.
  induction parts as [|p [|q rest] IH]; simpl in *.
  - reflexivity.
  - rewrite app_nil_r; reflexivity.
  - rewrite IH; reflexivity.
Qed.

Lemma extract_rainfall_entry_segment (h : heap) (rain : val) (line : pystr) :
  rainfall_segment h rain line -> extract_rainfall_entry h rain = Ok line.
Proof.
  intros (kvs & place & max & unit & sp & sm & su & Hd & Hp & Hm & Hu
          & Ep & Em & Eu & ->).
  unfold extract_rainfall_entry.
  rewrite (dict_get_is_dict _ _ _ _ _ Hd); cbn [rbind].
  rewrite (getitem_is_dict _ _ _ _ _ Hd Hp); cbn [rbind]; rewrite Ep; cbn [rbind].
  rewrite (getitem_is_dict _ _ _ _ _ Hd Hm); cbn [rbind]; rewrite Em; cbn [rbind].
  rewrite (getitem_is_dict _ _ _ _ _ Hd Hu); cbn [rbind]; rewrite Eu; reflexivity.
Qed.

(** X3.  For every well-formed heap and every document with a [rainfall]
    entry that holds the readings [data], [extract_rainfall_data] returns
    [Rainfall data:], a newline and a space, followed by the segments of the
    readings in their order with nothing between one segment and the next. *)
Theorem extract_rainfall_data_segments (h : heap) (data rainfall readings : val)
  (kvs rkvs : list (pystr * val)) (rs : list val) (lines : list pystr) :
  wf_heap h = true ->
  is_dict h data kvs -> lookup (u "rainfall") kvs = Some rainfall ->
  is_dict h rainfall rkvs ->
  lookup (u "data") rkvs = Some readings -> is_list h readings rs ->
  Forall2 (rainfall_segment h) rs lines ->
  fst (extract_rainfall_data data h)
  = Ok (u "Rainfall data:" ++ nl ++ u " " ++ concat lines).
Proof.
  intros Hwf Hd Hk Hr Hdata Hl Hlines.
  rewrite <- (app_nil_r h) at 1.
  rewrite extract_rainfall_data_fst
    by (try assumption; eapply is_dict_validb; eassumption).
  unfold extract_rainfall_data_value.
  rewrite (py_in_is_dict _ _ _ _ Hd), Hk; cbn [rbind].
  rewrite (getitem_is_dict _ _ _ _ _ Hd Hk); cbn [rbind].
  rewrite (getitem_is_dict _ _ _ _ _ Hr Hdata); cbn [rbind].
  rewrite (py_iter_is_list _ _ _ Hl); cbn [rbind].
  rewrite (Forall2_map_result (extract_rainfall_entry h) rs lines).
  - cbn [rbind]; rewrite join_nil_concat; reflexivity.
  - eapply Forall2_impl; [|exact Hlines].
    intros r line; apply extract_rainfall_entry_segment.
Qed.

(** ** The current weather report *)

Lemma extract_temperature_data_at (h : heap) (data : val) :
  wf_heap h = true -> validb (length h) data = true ->
  fst (extract_temperature_data data h) = extract_temperature_data_value h data.
Proof.
  intros Hwf Hv; rewrite <- (app_nil_r h) at 1.
  apply extract_temperature_data_fst; assumption.
Qed.

Lemma extract_rainfall_data_at (h : heap) (data : val) :
  wf_heap h = true -> validb (length h) data = true ->
  fst (extract_rainfall_data data h) = extract_rainfall_data_value h data.
Proof.
  intros Hwf Hv; rewrite <- (app_nil_r h) at 1.
  apply extract_rainfall_data_fst; assumption.
Qed.

Lemma extract_humidity_data_at (h : heap) (data : val) :
  wf_heap h = true -> validb (length h) data = true ->
  fst (extract_humidity_data data h) = extract_humidity_data_value h data.
Proof.
  intros Hwf Hv; rewrite <- (app_nil_r h) at 1.
  apply extract_humidity_data_fst; assumption.
Qed.

(** The four extractions of [current_weather_process], each in the heap of
    the call. *)
Lemma current_weather_process_at (h : heap) (data : val) :
  wf_heap h = true -> validb (length h) data = true ->
  fst (current_weather_process data h)
  = (t <- fst (extract_temperature_data data h) ;;
     r <- fst (extract_rainfall_data data h) ;;
     m <- fst (extract_humidity_data data h) ;;
     v <- fst (extract_uv_index data h) ;;
     Ok (join nl [t; r; m; v])).
Proof.
  intros Hwf Hv.
  rewrite <- (app_nil_r h) at 1.
  rewrite current_weather_process_fst by assumption.
  rewrite extract_temperature_data_at, extract_rainfall_data_at,
    extract_humidity_data_at by assumption.
  reflexivity.
Qed.

(** X4.  In a well-formed heap [current_weather_process] returns what its
    four extractions return when each is called on its own in the same
    heap, joined by newlines in the order temperature, rainfall, humidity,
    UV index, and raises what the first of them to fail raises: what one
    extraction leaves on the heap does not reach the next. *)
Theorem current_weather_process_composes (h : heap) (data : val) :
  wf_heap h = true -> validb (length h) data = true ->
  fst (current_weather_process data h)
  = (t <- fst (extract_temperature_data data h) ;;
     r <- fst (extract_rainfall_data data h) ;;
     m <- fst (extract_humidity_data data h) ;;
     v <- fst (extract_uv_index data h) ;;
     Ok (join nl [t; r; m; v])).
Proof. exact (current_weather_process_at h data). Qed.

(** X5.  The current weather report needs the keys [temperature], [rainfall]
    and [uvindex]: on a document (a [dict] of a well-formed heap) without
    [temperature], or with a temperature that renders and without
    [rainfall], [current_weather_process] raises [UnboundLocalError]; when
    the first three extractions return and [uvindex] is missing it raises
    [TypeError]; so whenever it returns a text the three keys are there. *)
Theorem current_weather_process_required_keys (h : heap) (data : val)
  (kvs : list (pystr * val)) :
  wf_heap h = true -> is_dict h data kvs ->
  (lookup (u "temperature") kvs = None ->
   fst (current_weather_process data h) = Raise UnboundLocalError)
  /\ (forall t,
        fst (extract_temperature_data data h) = Ok t ->
        lookup (u "rainfall") kvs = None ->
        fst (current_weather_process data h) = Raise UnboundLocalError)
  /\ (forall t r m,
        fst (extract_temperature_data data h) = Ok t ->
        fst (extract_rainfall_data data h) = Ok r ->
        fst (extract_humidity_data data h) = Ok m ->
        lookup (u "uvindex") kvs = None ->
        fst (current_weather_process data h) = Raise TypeError)
  /\ (forall s,
        fst (current_weather_process data h) = Ok s ->
        lookup (u "temperature") kvs <> None
        /\ lookup (u "rainfall") kvs <> None
        /\ lookup (u "uvindex") kvs <> None).
Proof.
  intros Hwf Hd.
  pose proof (is_dict_validb _ _ _ Hd) as Hv.
  rewrite (current_weather_process_at h data Hwf Hv).
  assert (Ht : lookup (u "temperature") kvs = None ->
               fst (extract_temperature_data data h) = Raise UnboundLocalError).
  { intros Hk; rewrite extract_temperature_data_at by assumption.
    unfold extract_temperature_data_value.
    rewrite (py_in_is_dict _ _ _ _ Hd), Hk; reflexivity. }
  assert (Hr : lookup (u "rainfall") kvs = None ->
               fst (extract_rainfall_data data h) = Raise UnboundLocalError).
  { intros Hk; rewrite extract_rainfall_data_at by assumption.
    unfold extract_rainfall_data_value.
    rewrite (py_in_is_dict _ _ _ _ Hd), Hk; reflexivity. }
  assert (Hu : lookup (u "uvindex") kvs = None ->
               fst (extract_uv_index data h) = Raise TypeError).
  { intros Hk; eapply extract_uv_index_absent; eassumption. }
  split; [|split; [|split]].
  - intros Hk; rewrite (Ht Hk); reflexivity.
  - intros t Et Hk; rewrite Et, (Hr Hk); reflexivity.
  - intros t r m Et Er Em Hk; rewrite Et, Er, Em, (Hu Hk); reflexivity.
  - intros s Es.
    destruct (lookup (u "temperature") kvs) eqn:Kt;
      [|rewrite (Ht eq_refl) in Es; discriminate].
    destruct (fst (extract_temperature_data data h)); [|discriminate].
    cbn [rbind] in Es.
    destruct (lookup (u "rainfall") kvs) eqn:Kr;
      [|rewrite (Hr eq_refl) in Es; discriminate].
    destruct (fst (extract_rainfall_data data h)); [|discriminate].
    cbn [rbind] in Es.
    destruct (fst (extract_humidity_data data h)); [|discriminate].
    cbn [rbind] in Es.
    destruct (lookup (u "uvindex") kvs) eqn:Ku;
      [|rewrite (Hu eq_refl) in Es; discriminate].
    repeat split; discriminate.
Qed.
(** ** The warning details *)

(** X6.  On a document (a [dict]) whose [details] is missing or is false
    (the JSON [null], an empty list, an empty string, zero), [format_warnings]
    returns [No active warnings] and makes no object. *)
Theorem format_warnings_no_details (h : heap) (data : val)
  (kvs : list (pystr * val)) :
  is_dict h data kvs ->
  (lookup (u "details") kvs = None
   \/ exists details,
        lookup (u "details") kvs = Some details
        /\ py_bool h details = Ok false) ->
  format_warnings data h = (Ok (u "No active warnings"), h).
Proof.
  intros Hd Hcase.
  unfold format_warnings, bind, rd, ret.
  rewrite (dict_get_is_dict _ _ _ _ _ Hd).
  destruct Hcase as [Hk | (details & Hk & Hb)]; rewrite Hk.
  - reflexivity.
  - rewrite Hb; reflexivity.
Qed.

Lemma str_join_is_list (h : heap) (sep : pystr) (v : val) (ss : list pystr) :
  is_list h v (map VStr ss) -> str_join h sep v = Ok (join sep ss).
Proof.
  intros Hl; unfold str_join.
  rewrite (py_iter_is_list _ _ _ Hl); cbn [rbind].
  rewrite all_str_map_VStr; reflexivity.
Qed.

Lemma is_dict_grown (h L : heap) (v : val) (kvs : list (pystr * val)) :
  is_dict h v kvs -> is_dict (h ++ L) v kvs.
Proof.
  intros [l [-> E]]; exists l; split; [reflexivity|].
  rewrite nth_error_grown by (eapply nth_error_validb; eassumption).
  assumption.
Qed.

Lemma is_list_grown (h L : heap) (v : val) (xs : list val) :
  is_list h v xs -> is_list (h ++ L) v xs.
Proof.
  intros [l [-> E]]; exists l; split; [reflexivity|].
  rewrite nth_error_grown by (eapply nth_error_validb; eassumption).
  assumption.
Qed.

Lemma format_warnings_entry_line (h : heap) (w : val) (line : pystr) :
  wf_heap h = true -> warning_line h w line ->
  format_warnings_entry (format_warnings_table h) (format_warnings_heap h) w
  = Ok line.
Proof.
  intros Hwf (kvs & code & name & time & stime & contents & cs & suffix
              & Hd & Hc & Hn & Hs & Ht & Est & Hcs & Hl & ->).
  pose proof (is_dict_grown h [OList []; ODict warning_code_dict] _ _ Hd) as Hd'.
  pose proof (is_list_grown h [OList []; ODict warning_code_dict] _ _ Hl) as Hl'.
  unfold format_warnings_entry, format_warnings_table, format_warnings_heap.
  rewrite (getitem_is_dict _ _ _ _ _ Hd' Hc); cbn [rbind].
  rewrite (getitem_key_table h []); unfold lookup_key; rewrite Hn; cbn [rbind].
  rewrite (dict_get_is_dict _ _ _ _ _ Hd'); cbn [rbind].
  unfold subtype_suffix in Hs.
  destruct (lookup (u "subtype") kvs) as [st|] eqn:Ks.
  - assert (Hst : validb (length h) st = true)
      by (eapply is_dict_lookup_validb; eassumption).
    rewrite py_bool_grown by assumption.
    destruct Hs as [[Eb ->] | [Eb (s & Es & ->)]]; rewrite Eb; cbn [rbind].
    + rewrite (getitem_is_dict _ _ _ _ _ Hd' Ht); cbn [rbind].
      rewrite (getitem_is_dict _ _ _ _ _ Hd' Hcs); cbn [rbind].
      rewrite (str_join_is_list _ _ _ _ Hl'); cbn [rbind py_str].
      rewrite py_str_grown
        by (try assumption; eapply is_dict_lookup_validb; eassumption).
      rewrite Est; reflexivity.
    + rewrite (getitem_is_dict _ _ _ _ _ Hd' Ks); cbn [rbind].
      rewrite py_str_grown by assumption.
      rewrite Es; cbn [rbind].
      rewrite (getitem_is_dict _ _ _ _ _ Hd' Ht); cbn [rbind].
      rewrite (getitem_is_dict _ _ _ _ _ Hd' Hcs); cbn [rbind].
      rewrite (str_join_is_list _ _ _ _ Hl'); cbn [rbind py_str].
      rewrite py_str_grown
        by (try assumption; eapply is_dict_lookup_validb; eassumption).
      rewrite Est; reflexivity.
  - subst suffix; cbn [py_bool rbind].
    rewrite (getitem_is_dict _ _ _ _ _ Hd' Ht); cbn [rbind].
    rewrite (getitem_is_dict _ _ _ _ _ Hd' Hcs); cbn [rbind].
    rewrite (str_join_is_list _ _ _ _ Hl'); cbn [rbind py_str].
    rewrite py_str_grown
      by (try assumption; eapply is_dict_lookup_validb; eassumption).
    rewrite Est; reflexivity.
Qed.

Lemma format_warnings_start (h : heap) (data details : val)
  (kvs : list (pystr * val)) (recs : list val) :
  wf_heap h = true -> is_dict h data kvs ->
  lookup (u "details") kvs = Some details ->
  is_list h details recs -> recs <> [] ->
  fst (format_warnings data h)
  = (lines <- map_result
       (format_warnings_entry (format_warnings_table h)
          (format_warnings_heap h)) recs ;;
     Ok (join (nl ++ nl) lines)).
Proof.
  intros Hwf Hd Hk Hl Hne.
  rewrite <- (app_nil_r h) at 1.
  rewrite format_warnings_fst
    by (try assumption; eapply is_dict_validb; eassumption).
  unfold format_warnings_value.
  rewrite (dict_get_is_dict _ _ _ _ _ Hd), Hk; cbn [rbind].
  rewrite (py_bool_is_list _ _ _ Hl).
  destruct recs as [|r0 recs]; [congruence|]; cbn [rbind negb].
  rewrite (getitem_is_dict _ _ _ _ _ Hd Hk); cbn [rbind].
  rewrite (py_iter_is_list _ _ _ Hl); reflexivity.
Qed.

(** X7.  For every well-formed heap and every document whose [details] is a
    list, not empty, of warning records with known codes, [format_warnings]
    returns the texts of the records in their order, with an empty line
    between one and the next; a text is the name of the warning, its subtype
    in brackets if it has one, the update time, and the contents joined by
    single spaces. *)
Theorem format_warnings_lines (h : heap) (data details : val)
  (kvs : list (pystr * val)) (recs : list val) (lines : list pystr) :
  wf_heap h = true -> is_dict h data kvs ->
  lookup (u "details") kvs = Some details ->
  is_list h details recs -> recs <> [] ->
  Forall2 (warning_line h) recs lines ->
  fst (format_warnings data h) = Ok (join (nl ++ nl) lines).
Proof.
  intros Hwf Hd Hk Hl Hne Hlines.
  rewrite (format_warnings_start h data details kvs recs) by assumption.
  rewrite (Forall2_map_result _ recs lines); [reflexivity|].
  eapply Forall2_impl; [|exact Hlines].
  intros w line; apply format_warnings_entry_line; assumption.
Qed.
(** ** The branches of the formatter *)

Lemma formatting_weather_swt (h : heap) (data : val) :
  formatting_weather data (u "swt") h
  = (some_result (formatting_swt h data), h).
Proof.
  unfold formatting_weather.
  change (pystr_eqb (u "swt") (u "flw")) with false.
  change (pystr_eqb (u "swt") (u "fnd")) with false.
  change (pystr_eqb (u "swt") (u "rhrread")) with false.
  change (pystr_eqb (u "swt") (u "warnsum")) with false.
  change (pystr_eqb (u "swt") (u "warningInfo")) with false.
  change (pystr_eqb (u "swt") (u "swt")) with true.
  unfold some_str, some_result, bind, rd, ret.
  destruct (formatting_swt h data); reflexivity.
Qed.

Lemma formatting_weather_fnd (h : heap) (data : val) :
  formatting_weather data (u "fnd") h
  = (some_result (formatting_fnd h data), h).
Proof.
  unfold formatting_weather.
  change (pystr_eqb (u "fnd") (u "flw")) with false.
  change (pystr_eqb (u "fnd") (u "fnd")) with true.
  unfold some_str, some_result, bind, rd, ret.
  destruct (formatting_fnd h data); reflexivity.
Qed.

Lemma formatting_weather_flw (h : heap) (data : val) :
  formatting_weather data (u "flw") h
  = (some_result (formatting_flw h data), h).
Proof.
  unfold formatting_weather.
  change (pystr_eqb (u "flw") (u "flw")) with true.
  unfold some_str, some_result, bind, rd, ret.
  destruct (formatting_flw h data); reflexivity.
Qed.



(** X9.  The [fnd] branch needs the key [weatherForecast] and the [swt]
    branch the key [swt]: on a document (a [dict]) without it the branch
    raises [KeyError] and leaves the heap as it is. *)
Theorem formatting_weather_required_key (h : heap) (data : val)
  (kvs : list (pystr * val)) :
  is_dict h data kvs ->
  (lookup (u "weatherForecast") kvs = None ->
   formatting_weather data (u "fnd") h = (Raise KeyError, h))
  /\ (lookup (u "swt") kvs = None ->
      formatting_weather data (u "swt") h = (Raise KeyError, h)).
Proof.
  intros [l [-> E]]; split; intros Hk.
  - rewrite formatting_weather_fnd; unfold formatting_fnd, some_result.
    simpl getitem; rewrite E, Hk; reflexivity.
  - rewrite formatting_weather_swt; unfold formatting_swt, some_result.
    simpl getitem; rewrite E, Hk; reflexivity.
Qed.

(** X10.  For every document (a [dict]) the [flw] branch of
    [formatting_weather] returns the seven-line template, each line with
    the value of its key, or with the default of that key when the document
    does not hold it; it makes no object. *)
Theorem formatting_flw_template (h : heap) (data : val)
  (kvs : list (pystr * val)) (f1 f2 f3 f4 f5 f6 f7 : pystr) :
  is_dict h data kvs ->
  py_str h (field_or kvs (u "generalSituation") (u "Unknown")) = Ok f1 ->
  py_str h (field_or kvs (u "tcInfo") (u "Unkown")) = Ok f2 ->
  py_str h (field_or kvs (u "fireDangerWarning") (u "No fire Danger")) = Ok f3 ->
  py_str h (field_or kvs (u "forecastPeriod")
              (u "Forecast Period not provided")) = Ok f4 ->
  py_str h (field_or kvs (u "forecastDesc")
              (u "No forecast description available")) = Ok f5 ->
  py_str h (field_or kvs (u "outlook") (u "No outlook available")) = Ok f6 ->
  py_str h (field_or kvs (u "updateTime") (u "No update time available"))
  = Ok f7 ->
  formatting_weather data (u "flw") h
  = (Ok (Some (nl ++ indent8 ++ u "General Situation: " ++ f1
               ++ nl ++ indent8 ++ u "tcInfo: " ++ f2
               ++ nl ++ indent8 ++ u "fireDangerWarning: " ++ f3
               ++ nl ++ indent8 ++ u "forecastPeriod: " ++ f4
               ++ nl ++ indent8 ++ u "forecastDesc: " ++ f5
               ++ nl ++ indent8 ++ u "outlook: " ++ f6
               ++ nl ++ indent8 ++ u "updateTime: " ++ f7
               ++ nl ++ indent8)), h).
Proof.
  intros Hd E1 E2 E3 E4 E5 E6 E7.
  rewrite formatting_weather_flw.
  unfold formatting_flw, flw_field, field_or, some_result in *.
  rewrite !(dict_get_is_dict _ _ _ _ _ Hd); cbn [rbind].
  rewrite E1; cbn [rbind]; rewrite E2; cbn [rbind]; rewrite E3; cbn [rbind].
  rewrite E4; cbn [rbind]; rewrite E5; cbn [rbind]; rewrite E6; cbn [rbind].
  rewrite E7; reflexivity.
Qed.

(** A branch that matched returns a text when it returns. *)
Lemma some_str_ok {r : option pystr} (m : H pystr) (h h' : heap) :
  some_str m h = (Ok r, h') -> exists s, r = Some s.
Proof.
  unfold some_str, bind, ret.
  destruct (m h) as [[s|e] h1]; intros E; inversion E; eexists; reflexivity.
Qed.

(** Equality of strings, decided. *)
Lemma pystr_eqb_spec (a b : pystr) : pystr_eqb a b = true <-> a = b.
Proof using Type.
  revert b; induction a as [|x a IH]; intros [|y b]; simpl.
  - split; reflexivity.
  - split; discriminate.
  - split; discriminate.
  - rewrite andb_true_iff, N.eqb_eq, IH.
    split; [intros [-> ->]; reflexivity | intros E; inversion E; auto].
Qed.

(** For each of the six tags a branch matches. *)
Lemma formatting_weather_valid_tag (h h' : heap) (data : val)
  (dataType : pystr) (r : option pystr) :
  In dataType dataType_set ->
  formatting_weather data dataType h = (Ok r, h') -> exists s, r = Some s.
Proof using Type.
  unfold formatting_weather; intros Hin.
  repeat match goal with
         | |- context [if pystr_eqb dataType ?t then _ else _] =>
             destruct (pystr_eqb dataType t) eqn:?
         end;
    try (apply some_str_ok).
  exfalso.
  unfold dataType_set in Hin; simpl in Hin.
  repeat match goal with
         | H : pystr_eqb _ _ = false |- _ =>
             apply not_true_iff_false in H; rewrite pystr_eqb_spec in H
         end.
  repeat (destruct Hin as [Hin|Hin]; [congruence|]); exact Hin.
Qed.

(** X11.  [formatting_weather] returns [None] for the tags that are none of
    the six, and only for them: for such a tag it returns [None] and leaves
    the heap as it is, and for each of the six tags it returns a text
    whenever it returns. *)
Theorem formatting_weather_none (h : heap) (data : val) (dataType : pystr) :
  (~ In dataType dataType_set ->
   formatting_weather data dataType h = (Ok None, h))
  /\ (In dataType dataType_set ->
      forall r h', formatting_weather data dataType h = (Ok r, h') ->
                   exists s, r = Some s).
Proof using Type.
  split.
  - intros Hout; unfold formatting_weather.
    assert (Hne : forall t, In t dataType_set -> pystr_eqb dataType t = false).
    { intros t Ht; apply not_true_is_false; rewrite pystr_eqb_spec.
      intros ->; exact (Hout Ht). }
    rewrite !Hne by (unfold dataType_set; simpl; auto 10).
    reflexivity.
  - intros Hin r h' E; exact (formatting_weather_valid_tag _ _ _ _ _ Hin E).
Qed.
(** ** The fetcher and the entry tool at work *)

Lemma for_all_grows {A B} (f : A -> H B) (xs : list A) :
  Forall (fun x => grows (f x)) xs -> grows (for_all f xs).
Proof.
  induction 1 as [|x xs Hx _ IH].
  - apply grows_ret.
  - rewrite for_all_cons.
    apply grows_bind; [exact Hx | intros v].
    apply grows_bind; [exact IH | intros vs; apply grows_ret].
Qed.

Lemma grows_new_list_alone (xs : list val) : grows (new_list xs).
Proof. intros h; eexists; reflexivity. Qed.

Lemma load_grows (d : json) : grows (load d).
Proof.
  induction d as [| b | z | f | s | xs IH | kvs IH] using json_induction;
    cbn [load]; try apply grows_ret.
  - apply grows_bind; [apply for_all_grows; exact IH|].
    intros vs; apply grows_new_list_alone.
  - apply grows_bind; [|intros es; apply grows_new_dict].
    apply for_all_grows.
    eapply Forall_impl; [|exact IH].
    intros kv Hkv; apply grows_bind; [exact Hkv | intros v; apply grows_ret].
Qed.

Lemma load_not_None (d : json) (h h' : heap) :
  load d h = (Ok VNone, h') -> d = JNull.
Proof.
  destruct d as [| b | z | f | s | xs | kvs]; cbn [load];
    try reflexivity; unfold ret; try (intros E; discriminate E).
  - unfold bind, new_list.
    destruct (for_all load xs h) as [[vs|e] h1]; intros E; discriminate E.
  - unfold bind at 1; unfold new_dict.
    destruct (for_all _ kvs h) as [[es|e] h1]; intros E; discriminate E.
Qed.

(** The request is sent before anything can fail. *)
Lemma make_hko_weather_request_requests (url : pystr) (w : world) :
  requests (snd (make_hko_weather_request url w)) = requests w ++ [url].
Proof.
  unfold make_hko_weather_request, try_except, wbind, client_get,
    raise_for_status, response_json, on_heap, wraise, wret, print.
  destruct (upstream (requests w) url) as [status body|e]; cbn [fst snd].
  - destruct (Z.leb 200 status && Z.leb status 299).
    + destruct body as [d|]; cbn [objects requests stdout]; [|reflexivity].
      destruct (load d (objects w)) as [[v|e] h']; [reflexivity|].
      destruct e; reflexivity.
    + reflexivity.
  - destruct e; reflexivity.
Qed.

(** A reply that gives no document gives [None]. *)
Lemma make_hko_weather_request_no_document (url : pystr) (w : world) :
  no_document (upstream (requests w) url) ->
  fst (make_hko_weather_request url w) = Ok VNone.
Proof.
  unfold no_document, make_hko_weather_request, try_except, wbind, client_get,
    raise_for_status, response_json, on_heap, wraise, wret, print.
  destruct (upstream (requests w) url) as [status [d|]|e]; cbn [fst snd].
  - destruct (Z.leb 200 status && Z.leb status 299) eqn:Es.
    + intros [Hs | ->]; [|reflexivity].
      apply andb_true_iff in Es; rewrite !Z.leb_le in Es; lia.
    + reflexivity.
  - intros _; destruct (Z.leb 200 status && Z.leb status 299); reflexivity.
  - intros He; destruct e; try discriminate He; reflexivity.
Qed.

(** X12.  Every call of [make_hko_weather_request] sends one request, to the
    URL it is given, whatever comes back, be it returned or raised; it
    leaves every object of the heap as it was, and calls [print] at most
    once. *)
Theorem make_hko_weather_request_one_request (url : pystr) (w : world) :
  requests (snd (make_hko_weather_request url w)) = requests w ++ [url]
  /\ (exists L, objects (snd (make_hko_weather_request url w))
                = objects w ++ L)
  /\ (exists calls, stdout (snd (make_hko_weather_request url w))
                    = stdout w ++ calls
                    /\ length calls <= 1).
Proof.
  split; [apply make_hko_weather_request_requests|].
  unfold make_hko_weather_request, try_except, wbind, client_get,
    raise_for_status, response_json, on_heap, wraise, wret, print.
  assert (Hsame : forall h : heap, exists L, h = h ++ L)
    by (intros h; exists []; rewrite app_nil_r; reflexivity).
  assert (Hnone : forall out : list log_line,
             exists lines, out = out ++ lines /\ length lines <= 1).
  { intros out; exists []; rewrite app_nil_r; split; [reflexivity | simpl; lia]. }
  assert (Hone : forall (out : list log_line) line,
             exists lines, out ++ [line] = out ++ lines /\ length lines <= 1).
  { intros out line; exists [line]; split; [reflexivity | simpl; lia]. }
  destruct (upstream (requests w) url) as [status body|e]; cbn [fst snd].
  - destruct (Z.leb 200 status && Z.leb status 299).
    + destruct body as [d|]; cbn [objects requests stdout].
      * destruct (load_grows d (objects w)) as [L EL].
        destruct (load d (objects w)) as [[v|e] h']; cbn [snd] in EL; subst h';
          cbn [snd objects requests stdout].
        -- split; [exists L; reflexivity | apply Hnone].
        -- destruct e; cbn [snd objects requests stdout];
             (split; [exists L; reflexivity
                     | first [apply Hone | apply Hnone]]).
      * cbn [snd objects requests stdout].
        split; [apply Hsame | apply Hone].
    + cbn [snd objects requests stdout].
      split; [apply Hsame | apply Hone].
  - destruct e; cbn [snd objects requests stdout];
      (split; [apply Hsame | first [apply Hone | apply Hnone]]).
Qed.

Lemma valid_input (dataType lang : pystr) :
  In dataType dataType_set -> In lang lang_set ->
  negb (set_mem dataType dataType_set) || negb (set_mem lang lang_set) = false.
Proof.
  intros Hd Hl.
  rewrite <- set_mem_In in Hd, Hl; rewrite Hd, Hl; reflexivity.
Qed.

(** X13.  For a valid tag and a valid language [get_weather] sends one
    request, to the base URL with the tag and the language as the query
    [dataType] and [lang]; when the reply gives no document (an exception
    that is an [Exception], a status outside 200..299, a body that is no
    JSON text, or the JSON [null]) it returns [Data is None]. *)
Theorem get_weather_no_document (dataType lang : pystr) (w : world) :
  In dataType dataType_set -> In lang lang_set ->
  requests (snd (get_weather dataType lang w))
  = requests w ++ [request_url dataType lang]
  /\ (no_document (upstream (requests w) (request_url dataType lang)) ->
      fst (get_weather dataType lang w) = Ok (Some (u "Data is None"))).
Proof.
  intros Hd Hl.
  unfold get_weather; rewrite (valid_input _ _ Hd Hl).
  fold (request_url dataType lang).
  set (url := request_url dataType lang).
  unfold wbind, print; cbv beta iota.
  pose proof (make_hko_weather_request_requests url
                (World (objects w) (requests w)
                   (stdout w ++ [LogRequestingURL url]))) as Hreq.
  pose proof (make_hko_weather_request_no_document url
                (World (objects w) (requests w)
                   (stdout w ++ [LogRequestingURL url]))) as Hnone.
  cbn [requests] in Hreq, Hnone.
  destruct (make_hko_weather_request url _) as [[data|e] w2];
    cbn [fst snd] in Hreq, Hnone.
  - split.
    + destruct data; unfold wret, on_heap; cbn [snd]; try exact Hreq;
        match goal with
        | |- context [formatting_weather ?v dataType (objects w2)] =>
            destruct (formatting_weather v dataType (objects w2))
        end; exact Hreq.
    + intros Hno; specialize (Hnone Hno); inversion Hnone; reflexivity.
  - split; [exact Hreq|].
    intros Hno; specialize (Hnone Hno); discriminate Hnone.
Qed.

(** X14.  For a valid tag and a valid language, when the reply has a status
    in 200..299 and a body that is a JSON text other than [null],
    [get_weather] returns what [formatting_weather] returns on the parsed
    document for the tag, and raises what it raises. *)
Theorem get_weather_formats (dataType lang : pystr) (w : world) (status : Z)
  (d : json) :
  In dataType dataType_set -> In lang lang_set ->
  upstream (requests w) (request_url dataType lang)
  = Response status (Some d) ->
  (200 <= status <= 299)%Z -> d <> JNull ->
  fst (get_weather dataType lang w)
  = fst (bind (load d) (fun data => formatting_weather data dataType)
           (objects w)).
Proof.
  intros Hd Hl Eu Hs Hnull.
  unfold get_weather; rewrite (valid_input _ _ Hd Hl).
  fold (request_url dataType lang).
  set (url := request_url dataType lang) in *.
  unfold wbind at 1; unfold print at 1.
  unfold wbind.
  unfold make_hko_weather_request, try_except, wbind, client_get,
    raise_for_status, response_json, on_heap, wraise, wret.
  cbn [requests objects stdout]; rewrite Eu; cbn [fst snd].
  assert (Z.leb 200 status && Z.leb status 299 = true) as ->.
  { apply andb_true_iff; rewrite !Z.leb_le; lia. }
  cbn [objects requests stdout].
  unfold bind.
  destruct (load_ok d (objects w)) as [v [h' Ev]]; rewrite Ev.
  destruct v; cbn [objects fst snd];
    try (destruct (formatting_weather _ dataType h'); reflexivity).
  exfalso; apply Hnull; eapply load_not_None; eassumption.
Qed.

(** X15.  Whenever [get_weather] returns, it returns a text: the [None] of
    [formatting_weather] is out of its reach, since it passes on only the
    six tags. *)
Theorem get_weather_returns_text (dataType lang : pystr) (w w' : world)
  (r : option pystr) :
  get_weather dataType lang w = (Ok r, w') -> exists s, r = Some s.
Proof.
  unfold get_weather.
  destruct (negb (set_mem dataType dataType_set)
            || negb (set_mem lang lang_set)) eqn:Ev.
  - unfold wret; intros E; inversion E; eexists; reflexivity.
  - apply orb_false_iff in Ev; destruct Ev as [Hd _].
    apply negb_false_iff in Hd; rewrite set_mem_In in Hd.
    unfold wbind at 1; unfold print at 1.
    unfold wbind.
    match goal with
    | |- context [make_hko_weather_request ?url ?w1] =>
        destruct (make_hko_weather_request url w1) as [[data|e] w2]
    end; [|discriminate].
    assert (Hfmt : forall v,
              on_heap (formatting_weather v dataType) w2 = (Ok r, w') ->
              exists s, r = Some s).
    { intros v; unfold on_heap.
      destruct (formatting_weather v dataType (objects w2)) as [r0 h2] eqn:Ef.
      intros E; inversion E; subst.
      exact (formatting_weather_valid_tag _ _ _ _ _ Hd Ef). }
    destruct data; try apply Hfmt.
    unfold wret; intros E; inversion E; eexists; reflexivity.
Qed.

(** X16.  What [extract_uv_index] does with a [uvindex] that holds no
    reading: a value of length 0 (the empty string the observatory sends when
    there is no reading, an empty list or an empty dict) gives
    [No UV index]; a string that is not empty is subscripted with ['data']
    and the call raises [TypeError]; a value without a length (a number,
    a boolean, [None]) raises [TypeError] as well. *)
Theorem extract_uv_index_no_reading (h : heap) (data uvinfo : val)
  (kvs : list (pystr * val)) :
  is_dict h data kvs -> lookup (u "uvindex") kvs = Some uvinfo ->
  (py_len h uvinfo = Ok 0 ->
   extract_uv_index data h = (Ok (u "No UV index"), h))
  /\ (forall s, uvinfo = VStr s -> s <> [] ->
        extract_uv_index data h = (Raise TypeError, h))
  /\ (py_len h uvinfo = Raise TypeError ->
      extract_uv_index data h = (Raise TypeError, h)).
Proof.
  intros Hd Hk; unfold extract_uv_index, rd.
  rewrite (dict_get_is_dict _ _ _ _ _ Hd), Hk; cbn [rbind].
  split; [|split].
  - intros ->; reflexivity.
  - intros s -> Hs; destruct s as [|c s]; [contradiction|reflexivity].
  - intros ->; reflexivity.
Qed.
End Weather.

Arguments VNone {pyfloat}.
Arguments VBool {pyfloat} b.
Arguments VInt {pyfloat} z.
Arguments VStr {pyfloat} s.
Arguments VRef {pyfloat} l.
Arguments World {pyfloat} objects requests stdout.

(** ** The theorems at work

    The interpreter of the examples: no [float], [quoted] for [repr] on a
    [str], a recursion limit of 1000 and a fixed order of the two sets. *)


Lemma get_weather_invalid_input_witness :
  get_weather no_float_repr no_float_bool quoted 1000
    (fun _ _ => Failure no_float RequestError) example_order1 example_order2
    (u "weather") (u "en") (World [] [] [])
  = (Ok (Some (u "Invalid dataType or lang. Use dataType in {'swt', 'fnd', 'flw', 'warnsum', 'rhrread', 'warningInfo'} and {'tc', 'en', 'sc'}")),
     World [] [] [])
  /\ requests
       (snd (get_weather no_float_repr no_float_bool quoted 1000
               (fun _ _ => Failure no_float RequestError)
               example_order1 example_order2
               (u "weather") (u "en") (World [] [] [])))
     = [].
Proof.
  apply (get_weather_invalid_input no_float no_float_repr no_float_bool quoted 1000
           (fun _ _ => Failure no_float RequestError)
           example_order1 example_order2 (u "weather") (u "en")
           (World [] [] [])).
  - apply (Permutation_cons_app
             [u "flw"; u "fnd"; u "rhrread"; u "warnsum"; u "warningInfo"] []
             (u "swt")).
    apply (Permutation_cons_app
             [u "flw"] [u "rhrread"; u "warnsum"; u "warningInfo"] (u "fnd")).
    apply (Permutation_cons_app
             [] [u "rhrread"; u "warnsum"; u "warningInfo"] (u "flw")).
    apply (Permutation_cons_app
             [u "rhrread"] [u "warningInfo"] (u "warnsum")).
    apply (Permutation_cons_app [] [u "warningInfo"] (u "rhrread")).
    apply Permutation_refl.
  - apply (Permutation_cons_app [u "en"] [u "sc"] (u "tc")).
    apply Permutation_refl.
  - intros t _; reflexivity.
  - left; cbv; intros Hin.
    repeat (destruct Hin as [Hin|Hin]; [discriminate|]); exact Hin.
Defined.

Lemma make_hko_weather_request_cancelled_counterexample :
  make_hko_weather_request (fun _ _ => Failure no_float CancelledError)
    HKO_API_BASE (World [] [] [])
  = (Raise CancelledError, World [] [HKO_API_BASE] [])
  /\ ~ (exists v w',
          make_hko_weather_request (fun _ _ => Failure no_float CancelledError)
            HKO_API_BASE (World [] [] [])
          = (Ok v, w')).
Proof.
  split; [reflexivity | intros [v [w' E]]; discriminate E].
Qed.

Lemma make_hko_weather_request_except_Exception_witness :
  make_hko_weather_request (fun _ _ => Response 404 None)
    HKO_API_BASE (World [] [] [])
  = (Ok (@VNone no_float), World [] [HKO_API_BASE] [LogHTTPError 404])
  /\ (fst (make_hko_weather_request (fun _ _ => Failure no_float RequestError)
             HKO_API_BASE (World [] [] []))
      = Ok (@VNone no_float)
      /\ objects
           (snd (make_hko_weather_request
                   (fun _ _ => Failure no_float RequestError)
                   HKO_API_BASE (World [] [] [])))
         = [])
  /\ make_hko_weather_request
       (fun _ _ => Response 200 (Some (tc1_document no_float)))
       HKO_API_BASE (World [] [] [])
     = (Ok (VRef 1), World (heap_of (tc1_document no_float)) [HKO_API_BASE] [])
  /\ make_hko_weather_request (fun _ _ => Failure no_float KeyboardInterrupt)
       HKO_API_BASE (World [] [] [])
     = (Raise KeyboardInterrupt, World [] [HKO_API_BASE] []).
Proof.
  split; [|split; [|split]].
  - apply (proj1 (proj2 (make_hko_weather_request_except_Exception _
                           (fun _ _ => Response 404 None)
                           HKO_API_BASE (World [] [] [])))
             404%Z None); [reflexivity | lia].
  - apply (proj1 (proj2 (proj2 (make_hko_weather_request_except_Exception _
                                  (fun _ _ => Failure no_float RequestError)
                                  HKO_API_BASE (World [] [] []))))
             RequestError); reflexivity.
  - destruct (proj1 (proj2 (proj2 (proj2 (proj2
                (make_hko_weather_request_except_Exception _
                   (fun _ _ => Response 200 (Some (tc1_document no_float)))
                   HKO_API_BASE (World [] [] []))))))
                200%Z (tc1_document no_float) eq_refl
                (conj (Z.le_refl 200) (Zle_bool_imp_le 200 299 eq_refl)))
      as [v [h' [El Em]]].
    rewrite Em; cbn [objects] in El.
    unfold heap_of; rewrite El.
    vm_compute in El; inversion El; reflexivity.
  - apply (proj2 (proj2 (proj2 (proj2 (proj2
             (make_hko_weather_request_except_Exception _
                (fun _ _ => Failure no_float KeyboardInterrupt)
                HKO_API_BASE (World [] [] []))))))
             KeyboardInterrupt); reflexivity.
Defined.

Lemma format_warnings_unknown_code_witness :
  fst (format_warnings no_float_repr no_float_bool quoted 1000 (VRef 5)
         (heap_of (unknown_code_document no_float)))
  = Raise KeyError
  /\ is_LookupError KeyError = true.
Proof.
  apply (proj2 (proj2 (format_warnings_unknown_code no_float no_float_repr
                         no_float_bool quoted 1000))
           (heap_of (unknown_code_document no_float)) (VRef 5)
           [(u "details", VRef 4)] (VRef 4) [VRef 1] (VRef 3) []
           (VStr (u "WXYZ"))).
  - reflexivity.
  - exists 5; split; reflexivity.
  - reflexivity.
  - exists 4; split; reflexivity.
  - constructor; [|constructor].
    exists (u "Rainstorm Warning Signal - t1: Red rain warning in force.").
    reflexivity.
  - reflexivity.
  - reflexivity.
  - reflexivity.
Defined.

Lemma extract_temperature_data_separator_counterexample :
  on_document (two_temperatures_document no_float)
    (extract_temperature_data no_float_repr quoted 1000)
  = Ok (u "Temperature readings (recorded at t):A: 20" ++ degree ++ u "C"
          ++ nl ++ u "B: 21" ++ degree ++ u "C")
  /\ on_document (two_temperatures_document no_float)
       (extract_temperature_data no_float_repr quoted 1000)
     <> Ok (u "Temperature readings (recorded at t):A: 20" ++ degree ++ u "C"
              ++ u "B: 21" ++ degree ++ u "C").
Proof.
  split; [vm_compute; reflexivity | vm_compute; discriminate].
Qed.

Lemma extract_temperature_data_segments_witness :
  fst (extract_temperature_data no_float_repr quoted 1000 (VRef 4)
         (heap_of (two_temperatures_document no_float)))
  = Ok ((u "Temperature readings (recorded at " ++ u "t" ++ u "):")
          ++ join nl [u "A: 20" ++ degree ++ u "C";
                      u "B: 21" ++ degree ++ u "C"]).
Proof.
  apply (extract_temperature_data_segments no_float no_float_repr quoted 1000
           (heap_of (two_temperatures_document no_float))
           (VRef 4) (VRef 3) (VRef 2) (VStr (u "t"))
           [(u "temperature", VRef 3)]
           [(u "recordTime", VStr (u "t")); (u "data", VRef 2)]
           [VRef 0; VRef 1] (u "t")).
  - reflexivity.
  - exists 4; split; reflexivity.
  - reflexivity.
  - exists 3; split; reflexivity.
  - reflexivity.
  - exists 2; split; reflexivity.
  - reflexivity.
  - reflexivity.
  - constructor; [|constructor; [|constructor]].
    + exists [(u "place", VStr (u "A")); (u "value", VInt 20);
              (u "unit", VStr (u "C"))],
        (VStr (u "A")), (VInt 20), (VStr (u "C")), (u "A"), (u "20"), (u "C").
      repeat split; try reflexivity.
      exists 0; split; reflexivity.
    + exists [(u "place", VStr (u "B")); (u "value", VInt 21);
              (u "unit", VStr (u "C"))],
        (VStr (u "B")), (VInt 21), (VStr (u "C")), (u "B"), (u "21"), (u "C").
      repeat split; try reflexivity.
      exists 1; split; reflexivity.
Defined.


Lemma extract_humidity_data_cases_witness :
  fst (extract_humidity_data no_float_repr no_float_bool quoted 1000 (VRef 4)
         (heap_of (humidity_document no_float)))
  = Ok (u "Humidity: " ++ u "80" ++ u " " ++ u "percent" ++ u " at "
          ++ u "Hong Kong Observatory" ++ u " Recorded at: " ++ u "t")
  /\ fst (extract_humidity_data no_float_repr no_float_bool quoted 1000
            (VRef 2) (heap_of (empty_humidity_document no_float (u "t"))))
     = Ok (u "Humidty data not available").
Proof.
  split.
  - apply (proj2 (proj2 (extract_humidity_data_cases no_float no_float_repr
                           no_float_bool quoted 1000))
             (heap_of (humidity_document no_float)) (VRef 4)
             [(u "humidity", VRef 3)] (VRef 3)
             [(u "recordTime", VStr (u "t")); (u "data", VRef 2)]
             (VRef 2) (VRef 0) [VRef 1]
             [(u "unit", VStr (u "percent")); (u "value", VInt 80);
              (u "place", VStr (u "Hong Kong Observatory"))]
             (VStr (u "t")) (VInt 80) (VStr (u "percent"))
             (VStr (u "Hong Kong Observatory")));
      try reflexivity.
    + exists 4; split; reflexivity.
    + exists 3; split; reflexivity.
    + exists 2; split; reflexivity.
    + exists 0; split; reflexivity.
  - apply (proj1 (proj2 (extract_humidity_data_cases no_float no_float_repr
                           no_float_bool quoted 1000))
             (heap_of (empty_humidity_document no_float (u "t"))) (VRef 2)
             [(u "humidity", VRef 1)]).
    + exists 2; split; reflexivity.
    + right; exists (VRef 1), [(u "data", VRef 0); (u "recordTime", VStr (u "t"))].
      split; [reflexivity|]; split; [exists 1; split; reflexivity|].
      right; exists (VRef 0); split; [reflexivity|].
      exists 0; split; reflexivity.
Defined.

Lemma formatting_weather_twice_witness :
  fst (formatting_weather no_float_repr no_float_bool quoted 1000 (VRef 1)
         (u "warnsum")
         (snd (formatting_weather no_float_repr no_float_bool quoted 1000
                 (VRef 1) (u "warnsum") (heap_of (tc1_document no_float)))))
  = fst (formatting_weather no_float_repr no_float_bool quoted 1000 (VRef 1)
           (u "warnsum") (heap_of (tc1_document no_float)))
  /\ fst (formatting_weather no_float_repr no_float_bool quoted 1000 (VRef 1)
            (u "warnsum") (heap_of (tc1_document no_float)))
     = formatting_weather_value no_float_repr no_float_bool quoted 1000
         (heap_of (tc1_document no_float)) (VRef 1) (u "warnsum").
Proof.
  apply (proj1 (formatting_weather_twice no_float no_float_repr no_float_bool
                  quoted 1000)
           (heap_of (tc1_document no_float)) (VRef 1) (u "warnsum"));
    reflexivity.
Defined.


Lemma extract_uv_index_first_reading_witness :
  fst (extract_uv_index no_float_repr quoted 1000 (VRef 3)
         (heap_of (uvindex_document no_float)))
  = Ok (u "UV Index: " ++ u "2" ++ u " (" ++ u "low" ++ u ") at "
          ++ u "King's Park" ++ u " " ++ nl ++ indent8
          ++ u "Record description: " ++ u "During the past hour").
Proof.
  apply (extract_uv_index_first_reading no_float no_float_repr quoted 1000
           (heap_of (uvindex_document no_float))
           (VRef 3) (VRef 2) (VRef 1) (VRef 0)
           (VStr (u "During the past hour")) (VInt 2) (VStr (u "low"))
           (VStr (u "King's Park"))
           [(u "uvindex", VRef 2)]
           [(u "data", VRef 1);
            (u "recordDesc", VStr (u "During the past hour"))]
           [(u "place", VStr (u "King's Park")); (u "value", VInt 2);
            (u "desc", VStr (u "low"))]
           []);
    try reflexivity.
  - exists 3; split; reflexivity.
  - exists 2; split; reflexivity.
  - exists 1; split; reflexivity.
  - exists 0; split; reflexivity.
Defined.

(** ** More theorems at work *)

Lemma extract_rainfall_data_segments_witness :
  fst (extract_rainfall_data no_float_repr quoted 1000 (VRef 4)
         (heap_of (rainfall_document no_float)))
  = Ok (u "Rainfall data:" ++ nl ++ u " "
          ++ concat [u "Sha Tin: 0mm maintenance:False";
                     u "Tai Po: 3mm maintenance: Under maintenance"]).
Proof.
  apply (extract_rainfall_data_segments no_float no_float_repr quoted 1000
           (heap_of (rainfall_document no_float))
           (VRef 4) (VRef 3) (VRef 2)
           [(u "rainfall", VRef 3)] [(u "data", VRef 2)]
           [VRef 0; VRef 1]).
  - reflexivity.
  - exists 4; split; reflexivity.
  - reflexivity.
  - exists 3; split; reflexivity.
  - reflexivity.
  - exists 2; split; reflexivity.
  - constructor; [|constructor; [|constructor]].
    + exists [(u "unit", VStr (u "mm")); (u "place", VStr (u "Sha Tin"));
              (u "max", VInt 0); (u "main", VStr (u "FALSE"))],
        (VStr (u "Sha Tin")), (VInt 0), (VStr (u "mm")),
        (u "Sha Tin"), (u "0"), (u "mm").
      repeat split; try reflexivity.
      exists 0; split; reflexivity.
    + exists [(u "unit", VStr (u "mm")); (u "place", VStr (u "Tai Po"));
              (u "max", VInt 3); (u "main", VStr (u "TRUE"))],
        (VStr (u "Tai Po")), (VInt 3), (VStr (u "mm")),
        (u "Tai Po"), (u "3"), (u "mm").
      repeat split; try reflexivity.
      exists 1; split; reflexivity.
Defined.

Lemma current_weather_process_composes_witness :
  fst (current_weather_process no_float_repr no_float_bool quoted 1000
         (VRef 5) (heap_of (full_rhrread_document no_float)))
  = (t <- fst (extract_temperature_data no_float_repr quoted 1000 (VRef 5)
                 (heap_of (full_rhrread_document no_float))) ;;
     r <- fst (extract_rainfall_data no_float_repr quoted 1000 (VRef 5)
                 (heap_of (full_rhrread_document no_float))) ;;
     m <- fst (extract_humidity_data no_float_repr no_float_bool quoted 1000
                 (VRef 5) (heap_of (full_rhrread_document no_float))) ;;
     v <- fst (extract_uv_index no_float_repr quoted 1000 (VRef 5)
                 (heap_of (full_rhrread_document no_float))) ;;
     Ok (join nl [t; r; m; v])).
Proof.
  apply (current_weather_process_composes no_float no_float_repr no_float_bool
           quoted 1000 (heap_of (full_rhrread_document no_float)) (VRef 5)).
  - reflexivity.
  - reflexivity.
Defined.

Lemma current_weather_process_required_keys_witness :
  fst (current_weather_process no_float_repr no_float_bool quoted 1000
         (VRef 0) (heap_of (no_uvindex_document no_float)))
  = Raise UnboundLocalError
  /\ (lookup (u "temperature")
        [(u "temperature", VRef 2); (u "rainfall", VRef 4);
         (u "uvindex", @VStr no_float (u ""))] <> None
      /\ lookup (u "rainfall")
           [(u "temperature", VRef 2); (u "rainfall", VRef 4);
            (u "uvindex", @VStr no_float (u ""))] <> None
      /\ lookup (u "uvindex")
           [(u "temperature", VRef 2); (u "rainfall", VRef 4);
            (u "uvindex", @VStr no_float (u ""))] <> None).
Proof.
  split.
  - apply (proj1 (current_weather_process_required_keys no_float no_float_repr
                    no_float_bool quoted 1000
                    (heap_of (no_uvindex_document no_float)) (VRef 0) []
                    eq_refl (ex_intro _ 0 (conj eq_refl eq_refl)))).
    reflexivity.
  - apply (proj2 (proj2 (proj2
             (current_weather_process_required_keys no_float no_float_repr
                no_float_bool quoted 1000
                (heap_of (full_rhrread_document no_float)) (VRef 5)
                [(u "temperature", VRef 2); (u "rainfall", VRef 4);
                 (u "uvindex", VStr (u ""))]
                eq_refl (ex_intro _ 5 (conj eq_refl eq_refl)))))
             (u "Temperature readings (recorded at t):A: 20" ++ degree
                ++ u "C" ++ nl ++ u "Rainfall data:" ++ nl ++ u " " ++ nl
                ++ u "Humidty data not available" ++ nl ++ u "No UV index")).
    vm_compute; reflexivity.
Defined.

Lemma format_warnings_no_details_witness :
  format_warnings no_float_repr no_float_bool quoted 1000 (VRef 0)
    (heap_of (situation_document no_float))
  = (Ok (u "No active warnings"), heap_of (situation_document no_float)).
Proof.
  apply (format_warnings_no_details no_float no_float_repr no_float_bool
           quoted 1000 (heap_of (situation_document no_float)) (VRef 0)
           [(u "generalSituation", VStr (u "A ridge of high pressure"));
            (u "updateTime", VStr (u "t1"))]).
  - exists 0; split; reflexivity.
  - left; reflexivity.
Defined.

Lemma format_warnings_lines_witness :
  fst (format_warnings no_float_repr no_float_bool quoted 1000 (VRef 5)
         (heap_of (two_warnings_document no_float)))
  = Ok (join (nl ++ nl)
          [u "Tropical Cyclone Warning Signal (TC8NE) - t1: Signal No. 8 is in force. Stay indoors.";
           u "Hot Weather Warning - t2: Very hot."]).
Proof.
  apply (format_warnings_lines no_float no_float_repr no_float_bool quoted 1000
           (heap_of (two_warnings_document no_float)) (VRef 5) (VRef 4)
           [(u "details", VRef 4)] [VRef 1; VRef 3]).
  - reflexivity.
  - exists 5; split; reflexivity.
  - reflexivity.
  - exists 4; split; reflexivity.
  - discriminate.
  - constructor; [|constructor; [|constructor]].
    + exists [(u "warningStatementCode", VStr (u "WTCSGNL"));
              (u "subtype", VStr (u "TC8NE"));
              (u "updateTime", VStr (u "t1"));
              (u "contents", VRef 0)],
        (u "WTCSGNL"), (u "Tropical Cyclone Warning Signal"),
        (VStr (u "t1")), (u "t1"), (VRef 0),
        [u "Signal No. 8 is in force."; u "Stay indoors."], (u " (TC8NE)").
      split; [exists 1; split; reflexivity|].
      split; [reflexivity|].
      split; [reflexivity|].
      split; [right; split; [reflexivity|];
              exists (u "TC8NE"); split; reflexivity|].
      split; [reflexivity|].
      split; [reflexivity|].
      split; [reflexivity|].
      split; [exists 0; split; reflexivity | reflexivity].
    + exists [(u "warningStatementCode", VStr (u "WHOT"));
              (u "updateTime", VStr (u "t2"));
              (u "contents", VRef 2)],
        (u "WHOT"), (u "Hot Weather Warning"),
        (VStr (u "t2")), (u "t2"), (VRef 2), [u "Very hot."], (u "").
      split; [exists 3; split; reflexivity|].
      split; [reflexivity|].
      split; [reflexivity|].
      split; [reflexivity|].
      split; [reflexivity|].
      split; [reflexivity|].
      split; [reflexivity|].
      split; [exists 2; split; reflexivity | reflexivity].
Defined.


Lemma formatting_weather_required_key_witness :
  formatting_weather no_float_repr no_float_bool quoted 1000 (VRef 0)
    (u "fnd") (heap_of (situation_document no_float))
  = (Raise KeyError, heap_of (situation_document no_float))
  /\ formatting_weather no_float_repr no_float_bool quoted 1000 (VRef 0)
       (u "swt") (heap_of (situation_document no_float))
     = (Raise KeyError, heap_of (situation_document no_float)).
Proof.
  split.
  - apply (proj1 (formatting_weather_required_key no_float no_float_repr
                    no_float_bool quoted 1000
                    (heap_of (situation_document no_float)) (VRef 0)
                    [(u "generalSituation",
                      VStr (u "A ridge of high pressure"));
                     (u "updateTime", VStr (u "t1"))]
                    (ex_intro _ 0 (conj eq_refl eq_refl)))).
    reflexivity.
  - apply (proj2 (formatting_weather_required_key no_float no_float_repr
                    no_float_bool quoted 1000
                    (heap_of (situation_document no_float)) (VRef 0)
                    [(u "generalSituation",
                      VStr (u "A ridge of high pressure"));
                     (u "updateTime", VStr (u "t1"))]
                    (ex_intro _ 0 (conj eq_refl eq_refl)))).
    reflexivity.
Defined.

Lemma formatting_flw_template_witness :
  formatting_weather no_float_repr no_float_bool quoted 1000 (VRef 0)
    (u "flw") (heap_of (situation_document no_float))
  = (Ok (Some (nl ++ indent8 ++ u "General Situation: "
                 ++ u "A ridge of high pressure"
               ++ nl ++ indent8 ++ u "tcInfo: " ++ u "Unkown"
               ++ nl ++ indent8 ++ u "fireDangerWarning: "
                 ++ u "No fire Danger"
               ++ nl ++ indent8 ++ u "forecastPeriod: "
                 ++ u "Forecast Period not provided"
               ++ nl ++ indent8 ++ u "forecastDesc: "
                 ++ u "No forecast description available"
               ++ nl ++ indent8 ++ u "outlook: " ++ u "No outlook available"
               ++ nl ++ indent8 ++ u "updateTime: " ++ u "t1"
               ++ nl ++ indent8)),
     heap_of (situation_document no_float)).
Proof.
  apply (formatting_flw_template no_float no_float_repr no_float_bool quoted
           1000 (heap_of (situation_document no_float)) (VRef 0)
           [(u "generalSituation", VStr (u "A ridge of high pressure"));
            (u "updateTime", VStr (u "t1"))]);
    try reflexivity.
  exists 0; split; reflexivity.
Defined.

Lemma get_weather_no_document_witness :
  requests
    (snd (get_weather no_float_repr no_float_bool quoted 1000
            (fun _ _ => Failure no_float RequestError)
            example_order1 example_order2
            (u "flw") (u "en") (World [] [] [])))
  = [] ++ [request_url (u "flw") (u "en")]
  /\ fst (get_weather no_float_repr no_float_bool quoted 1000
            (fun _ _ => Failure no_float RequestError)
            example_order1 example_order2
            (u "flw") (u "en") (World [] [] []))
     = Ok (Some (u "Data is None")).
Proof.
  assert (Hd : In (u "flw") dataType_set) by (simpl; auto).
  assert (Hl : In (u "en") lang_set) by (simpl; auto).
  split.
  - apply (proj1 (get_weather_no_document no_float no_float_repr no_float_bool
                    quoted 1000 (fun _ _ => Failure no_float RequestError)
                    example_order1 example_order2
                    (u "flw") (u "en") (World [] [] []) Hd Hl)).
  - apply (proj2 (get_weather_no_document no_float no_float_repr no_float_bool
                    quoted 1000 (fun _ _ => Failure no_float RequestError)
                    example_order1 example_order2
                    (u "flw") (u "en") (World [] [] []) Hd Hl)).
    reflexivity.
Defined.

Lemma get_weather_formats_witness :
  fst (get_weather no_float_repr no_float_bool quoted 1000
         (fun _ _ => Response 200 (Some (situation_document no_float)))
         example_order1 example_order2
         (u "flw") (u "en") (World [] [] []))
  = fst (bind (load (situation_document no_float))
           (fun data => formatting_weather no_float_repr no_float_bool quoted
                          1000 data (u "flw"))
           []).
Proof.
  apply (get_weather_formats no_float no_float_repr no_float_bool quoted 1000
           (fun _ _ => Response 200 (Some (situation_document no_float)))
           example_order1 example_order2
           (u "flw") (u "en") (World [] [] []) 200
           (situation_document no_float)).
  - simpl; auto.
  - simpl; auto.
  - reflexivity.
  - lia.
  - discriminate.
Defined.

Lemma get_weather_returns_text_witness :
  exists s, Some (u "Data is None") = Some s.
Proof.
  apply (get_weather_returns_text no_float no_float_repr no_float_bool quoted
           1000 (fun _ _ => Failure no_float RequestError)
           example_order1 example_order2
           (u "flw") (u "en") (World [] [] [])
           (World [] [request_url (u "flw") (u "en")]
              [LogRequestingURL (request_url (u "flw") (u "en"));
               LogRequestError])
           (Some (u "Data is None"))).
  vm_compute; reflexivity.
Defined.

Lemma extract_uv_index_no_reading_witness :
  extract_uv_index no_float_repr quoted 1000 (VRef 5)
    (heap_of (full_rhrread_document no_float))
  = (Ok (u "No UV index"), heap_of (full_rhrread_document no_float)).
Proof.
  apply (proj1 (extract_uv_index_no_reading no_float no_float_repr quoted 1000
                  (heap_of (full_rhrread_document no_float)) (VRef 5)
                  (VStr (u ""))
                  [(u "temperature", VRef 2); (u "rainfall", VRef 4);
                   (u "uvindex", VStr (u ""))]
                  (ex_intro _ 5 (conj eq_refl eq_refl)) eq_refl)).
  reflexivity.
Defined.
